(** * Line-to-transaction extraction of [modal/pdf_extract.py]

    A shallow embedding of the decision logic of the statement extractor:
    [parse_amount], [parse_date], [extract_transactions_from_lines] and the
    deduplication loop of [extract].

    Text.  A Python [str] is embedded as a [list ascii]; an [ascii] stands
    for the code point of the same number (U+0000 .. U+00FF).  The regular
    expression classes [\d], [\w] and [\s] are the ones CPython uses for
    [str] patterns, restricted to that range.

    Library code.  [re], [str], [datetime] and [float] belong to the Python
    runtime, not to the repository.  Each call the source makes is embedded
    by a function of the same behaviour on the arguments the source passes:
    the patterns are kept as data and run by one backtracking matcher,
    [strptime] walks the format directive by directive, [float] is the
    correctly rounded binary64 conversion ([SpecFloat]).  The source pins
    the platform (Debian slim, CPython 3.10), whose C library prints [%Y]
    without padding. *)

From Stdlib Require Import ZArith List String Ascii Bool Lia SpecFloat.
From stdpp Require Import base decidable list gmap strings.
Import ListNotations.

#[local] Open Scope Z_scope.
#[local] Open Scope list_scope.

(** ** Text *)

Abbreviation text := (list ascii).

(** A string literal of the source as a [text]. *)
Notation "'py' s" := (list_ascii_of_string s%string) (at level 9, s at level 0, only parsing).

Definition code (c : ascii) : Z := Z.of_nat (nat_of_ascii c).

Definition in_range (lo hi : Z) (c : ascii) : bool :=
  (lo <=? code c) && (code c <=? hi).

(** [\d]: decimal digits (category Nd); in this range, [0-9]. *)
Definition is_digit (c : ascii) : bool := in_range 48 57 c.

(** [\s], [str.split()], [str.strip()]: [Py_UNICODE_ISSPACE]. *)
Definition is_space (c : ascii) : bool :=
  in_range 9 13 c || in_range 28 32 c || (code c =? 133) || (code c =? 160).

(** [\w]: alphanumeric ([str.isalnum]) or underscore. *)
Definition is_word (c : ascii) : bool :=
  in_range 48 57 c || in_range 65 90 c || (code c =? 95) || in_range 97 122 c
  || (code c =? 170) || in_range 178 179 c || (code c =? 181)
  || in_range 185 186 c || in_range 188 190 c || in_range 192 214 c
  || in_range 216 246 c || in_range 248 255 c.

Definition is_char (a c : ascii) : bool := Ascii.eqb a c.

Definition digit_value (c : ascii) : Z := code c - 48.

(** Value of a run of decimal digits, most significant first ([int(s)]). *)
Definition digits_value (s : text) : Z :=
  fold_left (fun acc c => 10 * acc + digit_value c) s 0.

(** ** Regular expressions

    Every pattern of the source is a sequence of character classes, each
    under a greedy quantifier: [{n}], [{m,n}], [+], [?] or none. *)

Record item := Item { cls : ascii -> bool; lo : nat; hi : option nat }.

Definition exactly (n : nat) (p : ascii -> bool) : item := Item p n (Some n).
Definition between (m n : nat) (p : ascii -> bool) : item := Item p m (Some n).
Definition plus (p : ascii -> bool) : item := Item p 1 None.
Definition opt (p : ascii -> bool) : item := Item p 0 (Some 1%nat).
Definition lit (a : ascii) : item := exactly 1 (is_char a).

Definition regex := list item.

(** Longest prefix of [s] inside the class, cut at the upper bound. *)
Fixpoint run_length (p : ascii -> bool) (limit : option nat) (s : text) : nat :=
  match s with
  | [] => 0%nat
  | c :: s' =>
      if p c then
        match limit with
        | Some 0%nat => 0%nat
        | Some (S k) => S (run_length p (Some k) s')
        | None => S (run_length p None s')
        end
      else 0%nat
  end.

(** Greedy choice with backtracking: [k], then [k-1], ... down to [m];
    the result is the length consumed by the item and by what follows. *)
Fixpoint try_counts (k m : nat) (cont : nat -> option nat) : option nat :=
  match cont k with
  | Some r => Some (k + r)%nat
  | None =>
      match k with
      | 0%nat => None
      | S k' => if (m <=? k')%nat then try_counts k' m cont else None
      end
  end.

(** [match_items r s]: length of the match of [r] anchored at the start of
    [s], as the backtracking engine finds it. *)
Fixpoint match_items (r : regex) (s : text) : option nat :=
  match r with
  | [] => Some 0%nat
  | it :: r' =>
      let n := run_length (cls it) (hi it) s in
      if (n <? lo it)%nat then None
      else try_counts n (lo it) (fun k => match_items r' (skipn k s))
  end.

(** [re.search(r, s)]: the match at the leftmost position where one
    exists, as (start, length). *)
Fixpoint search_from (r : regex) (s : text) : option (nat * nat) :=
  match match_items r s with
  | Some n => Some (0%nat, n)
  | None =>
      match s with
      | [] => None
      | _ :: s' =>
          match search_from r s' with
          | Some (i, n) => Some (S i, n)
          | None => None
          end
      end
  end.

(** [re.search(r, s).group(0)], [None] when there is no match. *)
Definition re_search (r : regex) (s : text) : option text :=
  match search_from r s with
  | Some (i, n) => Some (firstn n (skipn i s))
  | None => None
  end.

(** [re.findall(r, s)] for a pattern without groups: the non-overlapping
    matches, left to right.  [skip] counts the characters of the current
    match still to pass.  (No pattern of the source matches the empty
    string.) *)
Fixpoint findall_from (r : regex) (skip : nat) (s : text) : list text :=
  match s with
  | [] => []
  | _ :: s' =>
      match skip with
      | S k => findall_from r k s'
      | 0%nat =>
          match match_items r s with
          | Some (S n) => firstn (S n) s :: findall_from r n s'
          | _ => findall_from r 0 s'
          end
      end
  end.

Definition re_findall (r : regex) (s : text) : list text := findall_from r 0 s.

(** [re.sub(r, '', s)]: every non-overlapping match removed. *)
Fixpoint remove_from (r : regex) (skip : nat) (s : text) : text :=
  match s with
  | [] => []
  | c :: s' =>
      match skip with
      | S k => remove_from r k s'
      | 0%nat =>
          match match_items r s with
          | Some (S n) => remove_from r n s'
          | _ => c :: remove_from r 0 s'
          end
      end
  end.

Definition re_remove (r : regex) (s : text) : text := remove_from r 0 s.

(** ** String methods *)

Fixpoint starts_with (p s : text) : bool :=
  match p, s with
  | [], _ => true
  | a :: p', c :: s' => Ascii.eqb a c && starts_with p' s'
  | _ :: _, [] => false
  end.

(** [s.replace(old, '')]: every non-overlapping occurrence of [old]
    removed, left to right; an empty [old] leaves [s] as it is. *)
Fixpoint replace_from (old : text) (skip : nat) (s : text) : text :=
  match s with
  | [] => []
  | c :: s' =>
      match skip with
      | S k => replace_from old k s'
      | 0%nat =>
          if starts_with old s
          then match old with
               | [] => c :: replace_from old 0 s'
               | _ :: old' => replace_from old (List.length old') s'
               end
          else c :: replace_from old 0 s'
      end
  end.

Definition str_remove (old s : text) : text := replace_from old 0 s.

(** [s.replace(',', '')]. *)
Definition remove_commas (s : text) : text := str_remove (py ",") s.

(** [s.split()]: the maximal runs of non-whitespace characters. *)
Fixpoint split (s : text) : list text :=
  match s with
  | [] => []
  | c :: s' =>
      if is_space c then split s'
      else
        match s' with
        | [] => [[c]]
        | c' :: _ =>
            if is_space c' then [c] :: split s'
            else
              match split s' with
              | w :: ws => (c :: w) :: ws
              | [] => [[c]]
              end
        end
  end.

(** [' '.join(ws)]. *)
Fixpoint join (ws : list text) : text :=
  match ws with
  | [] => []
  | [w] => w
  | w :: ws' => w ++ " "%char :: join ws'
  end.

Fixpoint lstrip (s : text) : text :=
  match s with
  | c :: s' => if is_space c then lstrip s' else s
  | [] => []
  end.

(** [s.strip()]. *)
Definition strip (s : text) : text := rev (lstrip (rev (lstrip s))).

(** [s[:n]]. *)
Definition prefix (n : nat) (s : text) : text := firstn n s.

(** ** [datetime] *)

Record date_t := Date { year : Z; month : Z; day : Z }.

Definition is_leap (y : Z) : bool :=
  (y mod 4 =? 0) && (negb (y mod 100 =? 0) || (y mod 400 =? 0)).

Definition days_in_month (y m : Z) : Z :=
  if m =? 2 then (if is_leap y then 29 else 28)
  else if (m =? 4) || (m =? 6) || (m =? 9) || (m =? 11) then 30
  else 31.

(** The check of the [datetime] constructor: [MINYEAR = 1], [MAXYEAR = 9999]. *)
Definition valid_date (d : date_t) : bool :=
  (1 <=? year d) && (year d <=? 9999)
  && (1 <=? month d) && (month d <=? 12)
  && (1 <=? day d) && (day d <=? days_in_month (year d) (month d)).

(** The directives the formats of the source use; white space in a format
    stands for [\s+]. *)
Inductive directive :=
| D_Y | D_y | D_m | D_d | D_b
| D_lit (c : ascii)
| D_ws.

Definition nonzero_digit (c : ascii) : bool := in_range 49 57 c.

(** [%d]: [3[0-1]|[1-2]\d|0[1-9]|[1-9]| [1-9]], alternatives in this order. *)
Definition take_d (s : text) : option (Z * text) :=
  match s with
  | a :: b :: s' =>
      if is_char "3" a && in_range 48 49 b then Some (digits_value [a; b], s')
      else if in_range 49 50 a && is_digit b then Some (digits_value [a; b], s')
      else if is_char "0" a && nonzero_digit b then Some (digits_value [a; b], s')
      else if nonzero_digit a then Some (digit_value a, b :: s')
      else if is_char " " a && nonzero_digit b then Some (digit_value b, s')
      else None
  | [a] => if nonzero_digit a then Some (digit_value a, []) else None
  | [] => None
  end.

(** [%m]: [1[0-2]|0[1-9]|[1-9]]. *)
Definition take_m (s : text) : option (Z * text) :=
  match s with
  | a :: b :: s' =>
      if is_char "1" a && in_range 48 50 b then Some (digits_value [a; b], s')
      else if is_char "0" a && nonzero_digit b then Some (digits_value [a; b], s')
      else if nonzero_digit a then Some (digit_value a, b :: s')
      else None
  | [a] => if nonzero_digit a then Some (digit_value a, []) else None
  | [] => None
  end.

(** [%Y]: [\d\d\d\d]. *)
Definition take_Y (s : text) : option (Z * text) :=
  match s with
  | a :: b :: c :: d :: s' =>
      if is_digit a && is_digit b && is_digit c && is_digit d
      then Some (digits_value [a; b; c; d], s') else None
  | _ => None
  end.

(** [%y]: [\d\d]; values 69-99 are mapped to 1969-1999, values 0-68 to
    2000-2068. *)
Definition take_y (s : text) : option (Z * text) :=
  match s with
  | a :: b :: s' =>
      if is_digit a && is_digit b
      then let yy := digits_value [a; b] in
           Some (if yy <=? 68 then yy + 2000 else yy + 1900, s')
      else None
  | _ => None
  end.

Definition lower (c : ascii) : ascii :=
  if in_range 65 90 c then ascii_of_nat (nat_of_ascii c + 32) else c.

Definition month_abbr : list text :=
  [py "jan"; py "feb"; py "mar"; py "apr"; py "may"; py "jun";
   py "jul"; py "aug"; py "sep"; py "oct"; py "nov"; py "dec"].

Fixpoint index_of (w : text) (l : list text) (i : Z) : option Z :=
  match l with
  | [] => None
  | x :: l' => if decide (x = w) then Some i else index_of w l' (i + 1)
  end.

(** [%b]: an abbreviated month name, letter case ignored. *)
Definition take_b (s : text) : option (Z * text) :=
  match s with
  | a :: b :: c :: s' =>
      match index_of [lower a; lower b; lower c] month_abbr 1 with
      | Some m => Some (m, s')
      | None => None
      end
  | _ => None
  end.

(** One step of the match of the compiled format against the data. *)
Definition take_directive (d : directive) (acc : date_t) (s : text)
  : option (date_t * text) :=
  match d with
  | D_Y => match take_Y s with
           | Some (y, s') => Some (Date y (month acc) (day acc), s') | None => None end
  | D_y => match take_y s with
           | Some (y, s') => Some (Date y (month acc) (day acc), s') | None => None end
  | D_m => match take_m s with
           | Some (m, s') => Some (Date (year acc) m (day acc), s') | None => None end
  | D_b => match take_b s with
           | Some (m, s') => Some (Date (year acc) m (day acc), s') | None => None end
  | D_d => match take_d s with
           | Some (n, s') => Some (Date (year acc) (month acc) n, s') | None => None end
  | D_lit c => match s with
               | a :: s' => if is_char c a then Some (acc, s') else None
               | [] => None
               end
  | D_ws => match s with
            | a :: s' => if is_space a then Some (acc, lstrip s') else None
            | [] => None
            end
  end.

Fixpoint take_format (fmt : list directive) (acc : date_t) (s : text)
  : option (date_t * text) :=
  match fmt with
  | [] => Some (acc, s)
  | d :: fmt' =>
      match take_directive d acc s with
      | Some (acc', s') => take_format fmt' acc' s'
      | None => None
      end
  end.

(** [datetime.strptime(s, fmt)]; [None] stands for [ValueError]: the data
    does not match the format, unconverted data remains, or the fields are
    not a date. *)
Definition strptime (s : text) (fmt : list directive) : option date_t :=
  match take_format fmt (Date 1900 1 1) s with
  | Some (d, []) => if valid_date d then Some d else None
  | _ => None
  end.

Definition digit_char (d : Z) : ascii := ascii_of_nat (Z.to_nat (48 + d mod 10)).

(** [%m], [%d]: two digits. *)
Definition show2 (n : Z) : text := [digit_char (n / 10); digit_char n].

(** [%Y] as the C library of the image prints it: the decimal number, not
    padded. *)
Definition show_year (y : Z) : text :=
  if y <? 10 then [digit_char y]
  else if y <? 100 then [digit_char (y / 10); digit_char y]
  else if y <? 1000 then [digit_char (y / 100); digit_char (y / 10); digit_char y]
  else [digit_char (y / 1000); digit_char (y / 100); digit_char (y / 10); digit_char y].

(** [dt.strftime('%Y-%m-%d')]. *)
Definition strftime (d : date_t) : text :=
  show_year (year d) ++ py "-" ++ show2 (month d) ++ py "-" ++ show2 (day d).

(** ** [parse_date] *)

Definition digit := is_digit.

(** [(\d{4})-(\d{2})-(\d{2})], ['%Y-%m-%d'] *)
Definition iso_pattern : regex * list directive :=
  ([exactly 4 digit; lit "-"; exactly 2 digit; lit "-"; exactly 2 digit],
   [D_Y; D_lit "-"; D_m; D_lit "-"; D_d]).

(** [(\d{2})/(\d{2})/(\d{4})], ['%d/%m/%Y'] *)
Definition dmy_slash_pattern : regex * list directive :=
  ([exactly 2 digit; lit "/"; exactly 2 digit; lit "/"; exactly 4 digit],
   [D_d; D_lit "/"; D_m; D_lit "/"; D_Y]).

(** [(\d{2})-(\d{2})-(\d{4})], ['%d-%m-%Y'] *)
Definition dmy_dash_pattern : regex * list directive :=
  ([exactly 2 digit; lit "-"; exactly 2 digit; lit "-"; exactly 4 digit],
   [D_d; D_lit "-"; D_m; D_lit "-"; D_Y]).

(** [(\d{2})/(\d{2})/(\d{2})], ['%d/%m/%y'] *)
Definition dmy_short_pattern : regex * list directive :=
  ([exactly 2 digit; lit "/"; exactly 2 digit; lit "/"; exactly 2 digit],
   [D_d; D_lit "/"; D_m; D_lit "/"; D_y]).

(** [(\w{3})\s+(\d{1,2}),?\s+(\d{4})], ['%b %d %Y'] *)
Definition month_name_pattern : regex * list directive :=
  ([exactly 3 is_word; plus is_space; between 1 2 digit; opt (is_char ",");
    plus is_space; exactly 4 digit],
   [D_b; D_ws; D_d; D_ws; D_Y]).

Definition patterns : list (regex * list directive) :=
  [iso_pattern; dmy_slash_pattern; dmy_dash_pattern; dmy_short_pattern;
   month_name_pattern].

(** The loop of [parse_date] over the remaining patterns. *)
Fixpoint parse_date_loop (ps : list (regex * list directive)) (t : text)
  : option text :=
  match ps with
  | [] => None
  | (pattern, fmt) :: ps' =>
      match re_search pattern t with
      | Some m =>
          match strptime (remove_commas m) fmt with
          | Some dt => Some (strftime dt)
          | None => parse_date_loop ps' t
          end
      | None => parse_date_loop ps' t
      end
  end.

Definition parse_date (t : text) : option text := parse_date_loop patterns t.

(** ** [float] and [parse_amount] *)

(** The binary64 nearest to [n / 10^k] (ties to even, overflow to
    infinity), with the sign [neg]. *)
Definition decimal_to_float (neg : bool) (n : Z) (k : nat) : spec_float :=
  match n with
  | Zpos m =>
      SFdiv 53 1024 (S754_finite neg m 0)
                    (S754_finite false (Z.to_pos (10 ^ Z.of_nat k)) 0)
  | _ => S754_zero neg
  end.

(** Longest prefix of digits and the rest. *)
Fixpoint span_digits (s : text) : text * text :=
  match s with
  | c :: s' =>
      if is_digit c then let (ds, r) := span_digits s' in (c :: ds, r)
      else ([], s)
  | [] => ([], [])
  end.

Definition unsigned_float (neg : bool) (s : text) : option spec_float :=
  let (ip, r) := span_digits s in
  match r with
  | [] =>
      match ip with
      | [] => None
      | _ => Some (decimal_to_float neg (digits_value ip) 0)
      end
  | c :: fp =>
      if is_char "." c && forallb is_digit fp
      then match ip ++ fp with
           | [] => None
           | ds => Some (decimal_to_float neg (digits_value ds) (List.length fp))
           end
      else None
  end.

(** [float(s)] for a string over digits, periods and minus signs, the only
    characters left when [parse_amount] calls it: an optional sign, digits
    with at most one period and at least one digit.  [None] stands for
    [ValueError]. *)
Definition py_float (s : text) : option spec_float :=
  match s with
  | c :: s' => if is_char "-" c then unsigned_float true s'
               else unsigned_float false s
  | [] => None
  end.

(** The complement of the class [[^\d.,\-]]. *)
Definition amount_char (c : ascii) : bool :=
  is_digit c || is_char "." c || is_char "," c || is_char "-" c.

Definition parse_amount (t : text) : option spec_float :=
  let cleaned := List.filter amount_char t in
  match cleaned with
  | [] => None
  | _ =>
      let cleaned := remove_commas cleaned in
      match py_float cleaned with
      | Some x => Some (SFabs x)
      | None => None
      end
  end.

(** ** [extract_transactions_from_lines] *)

Record transaction := Txn { date : text; description : text; amount : spec_float }.

Definition slash_or_dash (c : ascii) : bool := is_char "/" c || is_char "-" c.
Definition digit_or_comma (c : ascii) : bool := is_digit c || is_char "," c.

(** [[\d,]+\.\d{2}] *)
Definition amount_re : regex := [plus digit_or_comma; lit "."; exactly 2 digit].

(** [\d{1,2}[/-]\d{1,2}[/-]\d{2,4}] *)
Definition short_date_re : regex :=
  [between 1 2 digit; exactly 1 slash_or_dash; between 1 2 digit;
   exactly 1 slash_or_dash; between 2 4 digit].

(** [\d{4}[/-]\d{2}[/-]\d{2}] *)
Definition iso_date_re : regex :=
  [exactly 4 digit; exactly 1 slash_or_dash; exactly 2 digit;
   exactly 1 slash_or_dash; exactly 2 digit].

Definition zero : spec_float := S754_zero false.

(** [not amount or amount <= 0] for a float. *)
Definition not_positive (a : spec_float) : bool :=
  SFeqb a zero || SFleb a zero.

(** The body of the loop for one line; [None] is [continue], or the end of
    the body without [append]. *)
Definition extract_line (line : text) : option transaction :=
  match parse_date line with
  | None | Some [] => None
  | Some date =>
      let amounts := re_findall amount_re line in
      match List.last (map Some amounts) None with
      | None => None
      | Some last_amount =>
          match parse_amount last_amount with
          | None => None
          | Some amount =>
              if not_positive amount then None
              else
                let desc := fold_left (fun d amt => str_remove amt d) amounts line in
                let desc := re_remove short_date_re desc in
                let desc := re_remove iso_date_re desc in
                let desc := strip (join (split desc)) in
                if (3 <? List.length desc)%nat
                then Some (Txn date (prefix 100 desc) amount)
                else None
          end
      end
  end.

Fixpoint extract_transactions_from_lines (lines : list text) : list transaction :=
  match lines with
  | [] => []
  | line :: lines' =>
      match extract_line line with
      | Some txn => txn :: extract_transactions_from_lines lines'
      | None => extract_transactions_from_lines lines'
      end
  end.

(** ** Deduplication (the loop of [extract])

    The key is an f-string; the float in it is printed by [repr].  That
    printer is runtime code: it is a parameter here, with the two
    properties of it the proofs use. *)

Section Dedupe.

Variable float_repr : spec_float -> text.

Definition key (txn : transaction) : text :=
  date txn ++ py "_" ++ float_repr (amount txn) ++ py "_"
  ++ prefix 20 (description txn).

Fixpoint dedupe_loop (seen : gset text) (txns : list transaction)
  : list transaction :=
  match txns with
  | [] => []
  | txn :: txns' =>
      if decide (key txn ∈ seen) then dedupe_loop seen txns'
      else txn :: dedupe_loop ({[ key txn ]} ∪ seen) txns'
  end.

Definition dedupe (txns : list transaction) : list transaction :=
  dedupe_loop ∅ txns.

(** [extract], from the recognised lines on. *)
Definition extract (all_lines : list text) : list transaction :=
  dedupe (extract_transactions_from_lines all_lines).

End Dedupe.

(** ** Vocabulary of the statements *)

(** One turn of the loop of [parse_date]: the first match of the pattern,
    read under its format. *)
Definition attempt (p : regex * list directive) (t : text) : option date_t :=
  match re_search (fst p) t with
  | Some m => strptime (remove_commas m) (snd p)
  | None => None
  end.

(** The date of [t] comes from the pattern of rank [i] (from 0): its
    attempt succeeds and the attempt of every pattern before it fails. *)
Definition recognized_via (i : nat) (t : text) (dt : date_t) : Prop :=
  exists p, nth_error patterns i = Some p /\ attempt p t = Some dt
    /\ forall j q, (j < i)%nat -> nth_error patterns j = Some q ->
                   attempt q t = None.

(** [m] is a factor (contiguous substring) of [t] with the property [P]. *)
Definition has_factor (P : text -> Prop) (t : text) : Prop :=
  exists pre m post, t = pre ++ m ++ post /\ P m.

(** The line of the worked example of the specification. *)
Definition grocery_line : text := py "03/15/2024 GROCERY STORE PURCHASE 1,234.56".

(** The same purchase with the day written first. *)
Definition grocery_line_day_first : text :=
  py "15/03/2024 GROCERY STORE PURCHASE 1,234.56".

Definition coffee_line : text := py "Jan 5 2024 COFFEE SHOP 12.50".

(** The sign of a decimal numeral. *)
Definition sign_text (neg : bool) : text := if neg then py "-" else [].

(** [numeric s neg n k]: [s] is a decimal numeral, an optional minus sign
    and digits with at most one period and at least one digit, that denotes
    [n / 10^k], negated when [neg]. *)
Inductive numeric : text -> bool -> Z -> nat -> Prop :=
| numeric_integer neg ip :
    ip <> [] -> Forall (fun c => is_digit c = true) ip ->
    numeric (sign_text neg ++ ip) neg (digits_value ip) 0
| numeric_fraction neg ip fp :
    ip ++ fp <> [] ->
    Forall (fun c => is_digit c = true) ip ->
    Forall (fun c => is_digit c = true) fp ->
    numeric (sign_text neg ++ ip ++ py "." ++ fp) neg
            (digits_value (ip ++ fp)) (length fp).

(** Cleaning as the specification words it: digits, commas and periods are
    kept, a minus sign only when it leads what is kept. *)
Fixpoint clean_leading_minus (leading : bool) (t : text) : text :=
  match t with
  | [] => []
  | c :: t' =>
      if is_digit c || is_char "." c || is_char "," c
      then c :: clean_leading_minus false t'
      else if is_char "-" c && leading then c :: clean_leading_minus false t'
      else clean_leading_minus leading t'
  end.

(** [parseAmount] as the specification words it. *)
Definition parse_amount_leading_minus (t : text) : option spec_float :=
  match clean_leading_minus true t with
  | [] => None
  | cleaned =>
      match py_float (remove_commas cleaned) with
      | Some x => Some (SFabs x)
      | None => None
      end
  end.

(** What [amount_re] accepts: one or more characters, each a digit or a
    comma, then a period and two digits. *)
Definition amount_shape (m : text) : Prop :=
  exists run d1 d2,
    m = run ++ py "." ++ [d1; d2] /\ run <> []
    /\ Forall (fun c => digit_or_comma c = true) run
    /\ is_digit d1 = true /\ is_digit d2 = true.

(** Digits, optionally comma-grouped: groups of digits with single commas
    between them. *)
Inductive grouped_digits : text -> Prop :=
| grouped_last d : is_digit d = true -> grouped_digits [d]
| grouped_digit d s : is_digit d = true -> grouped_digits s -> grouped_digits (d :: s)
| grouped_comma d s :
    is_digit d = true -> grouped_digits s -> grouped_digits (d :: ","%char :: s).

(** The monetary shape as the specification words it: digits (optionally
    comma-grouped), a decimal point and two digits. *)
Definition grouped_amount_shape (m : text) : Prop :=
  exists run d1 d2,
    m = run ++ py "." ++ [d1; d2] /\ grouped_digits run
    /\ is_digit d1 = true /\ is_digit d2 = true.

(** Some position of [t] holds a digit with a period right after it. *)
Fixpoint digit_then_period (t : text) : bool :=
  match t with
  | c :: (c' :: _) as t' => (is_digit c && is_char "." c') || digit_then_period t'
  | _ => false
  end.

Definition comma_amount_line : text := py "2024-01-05 COFFEE ,.50".

#[global] Instance spec_float_eq_dec : EqDecision spec_float.
Proof. solve_decision. Defined.

(** The three fields the key is made of. *)
Definition key_fields (txn : transaction) : text * spec_float * text :=
  (date txn, amount txn, prefix 20 (description txn)).

(** Deduplication as the specification words it: a candidate is emitted
    when no candidate before it in the sequence has the same three key
    fields, and dropped otherwise. *)
Fixpoint first_occurrences (earlier txns : list transaction) : list transaction :=
  match txns with
  | [] => []
  | txn :: txns' =>
      if decide (key_fields txn ∈ map key_fields earlier)
      then first_occurrences (txn :: earlier) txns'
      else txn :: first_occurrences (txn :: earlier) txns'
  end.

(** A printer of floats with the two properties asked of [repr], used to
    run the deduplication on examples: sign, mantissa in binary (least
    significant bit first) and binary exponent. *)
Fixpoint bits (p : positive) : text :=
  match p with
  | xH => py "1"
  | xO q => "0"%char :: bits q
  | xI q => "1"%char :: bits q
  end.

Definition show_exponent (e : Z) : text :=
  match e with
  | Z0 => []
  | Zpos p => "+"%char :: bits p
  | Zneg p => "-"%char :: bits p
  end.

Definition sign_char (s : bool) : ascii := if s then "-"%char else "+"%char.

Definition binary_repr (x : spec_float) : text :=
  match x with
  | S754_zero s => sign_char s :: py "0.0"
  | S754_infinity s => sign_char s :: py "inf"
  | S754_nan => py "nan"
  | S754_finite s m e => sign_char s :: bits m ++ "p"%char :: show_exponent e
  end.

(** Two readings of one statement line that agree on the date, the amount
    and the first 20 characters of the description. *)
Definition rent_line : text := py "05/01/2024 MONTHLY RENT PAYMENT FLAT 12 Main Street 950.00".
Definition rent_line_again : text := py "05/01/2024 MONTHLY RENT PAYMENT flat  12 main st 950.00".

(** [s] is a calendar date written YYYY-MM-DD: four digits, a dash, two
    digits, a dash, two digits, that name a date [datetime] accepts. *)
Definition is_iso_date (s : text) : bool :=
  match s with
  | [y1; y2; y3; y4; a; m1; m2; b; d1; d2] =>
      forallb is_digit [y1; y2; y3; y4; m1; m2; d1; d2]
      && is_char "-" a && is_char "-" b
      && valid_date (Date (digits_value [y1; y2; y3; y4])
                          (digits_value [m1; m2]) (digits_value [d1; d2]))
  | _ => false
  end.

(** A line dated in the year 999. *)
Definition early_year_line : text := py "0999-01-05 COFFEE SHOP 12.50".

(** Whitespace runs collapsed: the only white space is the character
    space, never at the start and never twice in a row.  [after_space]
    tells whether a space is refused at the head of [s]. *)
Fixpoint single_spaced (after_space : bool) (s : text) : bool :=
  match s with
  | [] => true
  | c :: s' =>
      if is_space c
      then is_char " " c && negb after_space && single_spaced true s'
      else single_spaced false s'
  end.

Definition collapsed (s : text) : bool := single_spaced true s.

(** A float above zero: a finite positive number or plus infinity. *)
Definition positive_float (a : spec_float) : bool := SFltb zero a.

(** [matches r m]: [m] splits into consecutive runs, one for each item of
    [r], of characters of its class and of a length its quantifier allows. *)
Inductive matches : regex -> text -> Prop :=
| matches_nil : matches [] []
| matches_cons it r run rest :
    Forall (fun c => cls it c = true) run ->
    (lo it <= length run)%nat ->
    (forall h, hi it = Some h -> (length run <= h)%nat) ->
    matches r rest ->
    matches (it :: r) (run ++ rest).

(** A float that is not below zero and is a number. *)
Definition not_negative (a : spec_float) : Prop :=
  match a with
  | S754_zero false | S754_infinity false | S754_finite false _ _ => True
  | _ => False
  end.

(** A word of [split]: not empty, and free of white space. *)
Definition word (w : text) : Prop :=
  w <> [] /\ Forall (fun c => is_space c = false) w.

(** [x] does not start with white space. *)
Definition head_ok (x : text) : Prop :=
  match x with [] => True | c :: _ => is_space c = false end.

(** ** Vocabulary of the further properties *)

(** The characters a numeral is made of: digits, periods, minus signs. *)
Definition numeral_char (c : ascii) : bool :=
  is_digit c || is_char "." c || is_char "-" c.

(** Number of occurrences of [a] in [t]. *)
Definition occurrences (a : ascii) (t : text) : nat :=
  length (List.filter (is_char a) t).

(** A year written with four digits, zero padded. *)
Definition show4 (y : Z) : text :=
  [digit_char (y / 1000); digit_char (y / 100); digit_char (y / 10); digit_char y].

(** A date as a statement writes it: YYYY-MM-DD, DD/MM/YYYY or DD-MM-YYYY
    (for the separator [sep]), and DD/MM/YY with the last two digits of the
    year. *)
Definition iso_text (d : date_t) : text :=
  show4 (year d) ++ py "-" ++ show2 (month d) ++ py "-" ++ show2 (day d).

Definition dmy_text (sep : ascii) (d : date_t) : text :=
  show2 (day d) ++ [sep] ++ show2 (month d) ++ [sep] ++ show4 (year d).

Definition dmy_short_text (d : date_t) : text :=
  show2 (day d) ++ py "/" ++ show2 (month d) ++ py "/" ++ show2 (year d).

(** The English month abbreviations as statements print them. *)
Definition month_names : list text :=
  [py "Jan"; py "Feb"; py "Mar"; py "Apr"; py "May"; py "Jun";
   py "Jul"; py "Aug"; py "Sep"; py "Oct"; py "Nov"; py "Dec"].

Definition month_name (m : Z) : text := nth (Z.to_nat (m - 1)) month_names [].

(** The day of the month, with two digits when [pad], else without a
    leading zero. *)
Definition day_text (pad : bool) (d : Z) : text :=
  if pad || (10 <=? d) then show2 d else [digit_char d].

(** A date written "Mon D, YYYY", with the comma or without it. *)
Definition month_name_text (pad comma : bool) (d : date_t) : text :=
  month_name (month d) ++ py " " ++ day_text pad (day d)
  ++ (if comma then py "," else []) ++ py " " ++ show4 (year d).

(** [rest] does not go on with a character of the class [p]. *)
Definition stops (p : ascii -> bool) (rest : text) : Prop :=
  match rest with
  | [] => True
  | c :: _ => p c = false
  end.

(** The year [strptime] gives to the two digits [c] under [%y]. *)
Definition pivot_year (c : Z) : Z := if c <=? 68 then c + 2000 else c + 1900.

(** * Properties *)

(** ** Characters *)

Lemma is_char_eq a c : is_char a c = true <-> c = a.
Proof. unfold is_char. rewrite Ascii.eqb_eq. split; congruence. Qed.

Lemma digit_char_is_digit d : is_digit (digit_char d) = true.
Proof.
  unfold digit_char.
  assert (H : 0 <= d mod 10 < 10) by (apply Z.mod_pos_bound; lia).
  assert (C : d mod 10 = 0 \/ d mod 10 = 1 \/ d mod 10 = 2 \/ d mod 10 = 3
              \/ d mod 10 = 4 \/ d mod 10 = 5 \/ d mod 10 = 6 \/ d mod 10 = 7
              \/ d mod 10 = 8 \/ d mod 10 = 9) by lia.
  repeat destruct C as [C | C]; rewrite C; reflexivity.
Qed.

(** ** The matcher *)

Lemma run_length_le p limit s : (run_length p limit s <= length s)%nat.
Proof.
  revert limit. induction s as [|c s IH]; intros limit; simpl; [lia|].
  destruct (p c); [|lia].
  destruct limit as [[|k]|]; [lia | pose proof (IH (Some k)); lia | pose proof (IH None); lia].
Qed.

Lemma run_length_bound p h s : (run_length p (Some h) s <= h)%nat.
Proof.
  revert h. induction s as [|c s IH]; intros h; simpl; [lia|].
  destruct (p c); [|lia].
  destruct h as [|k]; [lia | pose proof (IH k); lia].
Qed.

Lemma run_length_class p limit s :
  Forall (fun c => p c = true) (firstn (run_length p limit s) s).
Proof.
  revert limit. induction s as [|c s IH]; intros limit; simpl; [constructor|].
  destruct (p c) eqn:E; [|constructor].
  destruct limit as [[|k]|]; simpl; [constructor | |]; constructor; auto.
Qed.

Lemma try_counts_some k m cont total :
  try_counts k m cont = Some total ->
  exists j r, (j <= k)%nat /\ (j = k \/ (m <= j)%nat) /\ cont j = Some r
              /\ total = (j + r)%nat.
Proof.
  induction k as [|k IH]; simpl.
  - destruct (cont 0%nat) as [r|] eqn:E; [|discriminate].
    intros [= <-]. exists 0%nat, r. auto.
  - destruct (cont (S k)) as [r|] eqn:E.
    + intros [= <-]. exists (S k), r. auto.
    + destruct (m <=? k)%nat eqn:L; [|discriminate].
      intros H. destruct (IH H) as (j & r & Hj & Hm & Hc & ->).
      exists j, r. apply Nat.leb_le in L. repeat split; auto.
      destruct Hm; [subst; auto | auto].
Qed.

Lemma Forall_firstn_le {A} (P : A -> Prop) (j n : nat) (l : list A) :
  (j <= n)%nat -> Forall P (firstn n l) -> Forall P (firstn j l).
Proof.
  revert j n. induction l as [|x l IH]; intros j n Hle H.
  - destruct j; constructor.
  - destruct j as [|j]; [constructor|].
    destruct n as [|n]; [lia|]. simpl in *.
    inversion H; subst. constructor; [assumption|]. apply (IH j n); [lia | assumption].
Qed.

(** What the engine returns is a match, and lies inside the subject. *)
Lemma match_items_sound r s n :
  match_items r s = Some n -> (n <= length s)%nat /\ matches r (firstn n s).
Proof.
  revert s n. induction r as [|it r IH]; intros s n; simpl.
  - intros [= <-]. split; [lia | constructor].
  - destruct (run_length (cls it) (hi it) s <? lo it)%nat eqn:L; [discriminate|].
    apply Nat.ltb_ge in L. intros H.
    apply try_counts_some in H as (j & k & Hj & Hm & Hc & ->).
    apply IH in Hc as [Hk Hmatch].
    pose proof (run_length_le (cls it) (hi it) s) as Hlen.
    rewrite length_skipn in Hk.
    split; [lia|].
    replace (firstn (j + k) s) with (firstn j s ++ firstn k (skipn j s)).
    2:{ rewrite <- (firstn_skipn j s) at 3. rewrite firstn_app.
        rewrite firstn_firstn, length_firstn.
        replace (Init.Nat.min (j + k) j) with j by lia.
        replace (j + k - Init.Nat.min j (length s))%nat with k by lia. reflexivity. }
    constructor; [| | |assumption].
    + apply Forall_firstn_le with (n := run_length (cls it) (hi it) s); [assumption|].
      apply run_length_class.
    + rewrite length_firstn. lia.
    + intros h Hh. rewrite length_firstn. rewrite Hh in Hj.
      pose proof (run_length_bound (cls it) h s). lia.
Qed.

Lemma search_from_some r s i n :
  search_from r s = Some (i, n) ->
  match_items r (skipn i s) = Some n
  /\ forall j, (j < i)%nat -> match_items r (skipn j s) = None.
Proof.
  revert i. induction s as [|c s IH]; intros i; simpl.
  - destruct (match_items r []) eqn:E; [|discriminate].
    intros [= <- <-]. split; [assumption | intros; lia].
  - destruct (match_items r (c :: s)) eqn:E.
    + intros [= <- <-]. split; [assumption | intros; lia].
    + destruct (search_from r s) as [[i' n']|] eqn:S; [|discriminate].
      intros [= <- <-]. destruct (IH i' eq_refl) as [Hm Hl].
      split; [assumption|]. intros [|j] Hj; [assumption|]. apply Hl. lia.
Qed.

(** [re.search] returns a factor of the subject that matches the pattern,
    and no match starts to the left of it. *)
Lemma re_search_some r s m :
  re_search r s = Some m ->
  exists pre post,
    s = pre ++ m ++ post /\ matches r m
    /\ forall j, (j < length pre)%nat -> match_items r (skipn j s) = None.
Proof.
  unfold re_search. destruct (search_from r s) as [[i n]|] eqn:S; [|discriminate].
  intros [= <-]. apply search_from_some in S as [Hm Hl].
  apply match_items_sound in Hm as [Hn Hmatch].
  rewrite length_skipn in Hn.
  exists (firstn i s), (skipn n (skipn i s)). split; [|split].
  - rewrite firstn_skipn, firstn_skipn. reflexivity.
  - assumption.
  - intros j Hj. apply Hl. rewrite length_firstn in Hj. lia.
Qed.

Lemma findall_from_factor r skip s m :
  In m (findall_from r skip s) ->
  exists pre post, s = pre ++ m ++ post /\ matches r m.
Proof.
  revert skip. induction s as [|c s IH]; intros skip; simpl; [tauto|].
  assert (Hrec : forall k, In m (findall_from r k s) ->
                 exists pre post, c :: s = pre ++ m ++ post /\ matches r m).
  { intros k Hin. destruct (IH k Hin) as (pre & post & -> & Hm).
    exists (c :: pre), post. auto. }
  destruct skip as [|k]; [|apply Hrec].
  destruct (match_items r (c :: s)) as [[|n]|] eqn:E; try apply Hrec.
  intros [<- | Hin]; [|eapply Hrec; eassumption].
  apply match_items_sound in E as [_ Hm].
  exists [], (skipn (S n) (c :: s)). split; [|assumption].
  simpl. f_equal. symmetry. apply (firstn_skipn n s).
Qed.

(** ** [parse_date] *)

Lemma parse_date_loop_some ps t iso :
  parse_date_loop ps t = Some iso <->
  exists i p dt, nth_error ps i = Some p /\ attempt p t = Some dt
    /\ iso = strftime dt
    /\ forall j q, (j < i)%nat -> nth_error ps j = Some q -> attempt q t = None.
Proof.
  revert iso. induction ps as [|[pattern fmt] ps IH]; intros iso; simpl.
  - split; [discriminate|]. intros ([|i] & p & dt & H & _); discriminate H.
  - assert (Hfail : attempt (pattern, fmt) t = None ->
      (parse_date_loop ps t = Some iso <->
       exists i p dt, nth_error ((pattern, fmt) :: ps) i = Some p
         /\ attempt p t = Some dt /\ iso = strftime dt
         /\ forall j q, (j < i)%nat ->
              nth_error ((pattern, fmt) :: ps) j = Some q -> attempt q t = None)).
    { intros Hnone. rewrite IH. split.
      - intros (i & p & dt & Hi & Ha & -> & Hb).
        exists (S i), p, dt. repeat split; auto.
        intros [|j] q Hj Hq; simpl in Hq; [congruence|]. apply (Hb j); [lia | assumption].
      - intros ([|i] & p & dt & Hi & Ha & -> & Hb); simpl in Hi.
        + congruence.
        + exists i, p, dt. repeat split; auto.
          intros j q Hj Hq. apply (Hb (S j)); [lia | assumption]. }
    unfold attempt in Hfail at 1. simpl in Hfail.
    destruct (re_search pattern t) as [m|] eqn:Hs; [|apply Hfail; reflexivity].
    destruct (strptime (remove_commas m) fmt) as [dt|] eqn:Hp; [|apply Hfail; reflexivity].
    split.
    + intros [= <-]. exists 0%nat, (pattern, fmt), dt. repeat split.
      * unfold attempt. simpl. rewrite Hs. assumption.
      * intros j q Hj. lia.
    + intros ([|i] & p & dt' & Hi & Ha & -> & Hb); simpl in Hi.
      * injection Hi as <-. unfold attempt in Ha. simpl in Ha. rewrite Hs, Hp in Ha.
        congruence.
      * specialize (Hb 0%nat (pattern, fmt)). unfold attempt in Hb. simpl in Hb.
        rewrite Hs, Hp in Hb. discriminate Hb; [lia | reflexivity].
Qed.

Lemma parse_date_loop_none ps t :
  parse_date_loop ps t = None <-> List.Forall (fun p => attempt p t = None) ps.
Proof.
  induction ps as [|[pattern fmt] ps IH]; simpl.
  - split; [constructor | reflexivity].
  - unfold attempt at 1. simpl.
    destruct (re_search pattern t) as [m|] eqn:Hs.
    + destruct (strptime (remove_commas m) fmt) as [dt|] eqn:Hp.
      * split; [discriminate|]. intros H. inversion H; subst.
        unfold attempt in *. simpl in *. rewrite Hs in *. congruence.
      * rewrite IH. split; [intros H; constructor; [|assumption] | intros H; inversion H; assumption].
        unfold attempt. simpl. rewrite Hs. assumption.
    + rewrite IH. split; [intros H; constructor; [|assumption] | intros H; inversion H; assumption].
      unfold attempt. simpl. rewrite Hs. reflexivity.
Qed.

Lemma parse_date_some t iso :
  parse_date t = Some iso <->
  exists i dt, recognized_via i t dt /\ iso = strftime dt.
Proof.
  unfold parse_date. rewrite parse_date_loop_some. split.
  - intros (i & p & dt & Hi & Ha & -> & Hb). exists i, dt. split; [|reflexivity].
    exists p. auto.
  - intros (i & dt & (p & Hi & Ha & Hb) & ->). exists i, p, dt. auto.
Qed.

(** C2.  [parse_date] tries the five patterns in the order ISO,
    DD/MM/YYYY, DD-MM-YYYY, DD/MM/YY, month name, and returns the normal
    form of the date read from the first pattern whose first match in the
    line is a calendar date: a pattern whose match is not a date does not
    stop the search (a), no date at all means no result (b), the match a
    pattern contributes is its leftmost one in the line (c), the order is
    the fixed one (d), a later pattern is tried after an invalid match (e)
    and the date used need not be the leftmost one of the text (f). *)
Theorem parse_date_first_valid_pattern :
  (forall t iso,
      parse_date t = Some iso <->
      exists i dt, recognized_via i t dt /\ iso = strftime dt)
  /\ (forall t, parse_date t = None <-> forall p, In p patterns -> attempt p t = None)
  /\ (forall p t dt, attempt p t = Some dt ->
        exists pre m post,
          t = pre ++ m ++ post /\ matches (fst p) m
          /\ strptime (remove_commas m) (snd p) = Some dt
          /\ forall j, (j < length pre)%nat -> match_items (fst p) (skipn j t) = None)
  /\ patterns = [iso_pattern; dmy_slash_pattern; dmy_dash_pattern;
                 dmy_short_pattern; month_name_pattern]
  /\ (attempt dmy_slash_pattern (py "99/99/9999 Jan 5, 2024") = None
      /\ attempt dmy_short_pattern (py "99/99/9999 Jan 5, 2024") = None
      /\ parse_date (py "99/99/9999 Jan 5, 2024") = Some (py "2024-01-05"))
  /\ parse_date (py "05/01/2024 2024-02-03") = Some (py "2024-02-03").
Proof.
  split; [exact parse_date_some|]. split; [|split; [|split; [reflexivity|split]]].
  - intros t. split.
    + intros Hnone p Hin. unfold parse_date in Hnone.
      rewrite parse_date_loop_none in Hnone. rewrite List.Forall_forall in Hnone. auto.
    + intros Hall. unfold parse_date. rewrite parse_date_loop_none.
      rewrite List.Forall_forall. assumption.
  - intros p t dt. unfold attempt.
    destruct (re_search (fst p) t) as [m|] eqn:Hs; [|discriminate].
    intros Hp. apply re_search_some in Hs as (pre & post & Ht & Hm & Hl).
    exists pre, m, post. auto.
  - vm_compute. auto.
  - vm_compute. reflexivity.
Qed.

Lemma parse_date_first_valid_pattern_witness :
  attempt iso_pattern (py "05/01/2024 2024-02-03") = Some (Date 2024 2 3)
  /\ exists pre m post,
       py "05/01/2024 2024-02-03" = pre ++ m ++ post /\ matches (fst iso_pattern) m
       /\ strptime (remove_commas m) (snd iso_pattern) = Some (Date 2024 2 3)
       /\ forall j, (j < length pre)%nat ->
            match_items (fst iso_pattern) (skipn j (py "05/01/2024 2024-02-03")) = None.
Proof.
  assert (H : attempt iso_pattern (py "05/01/2024 2024-02-03") = Some (Date 2024 2 3))
    by (vm_compute; reflexivity).
  split; [exact H|].
  exact (proj1 (proj2 (proj2 parse_date_first_valid_pattern)) iso_pattern _ _ H).
Defined.

(** ** Two-digit years *)

Lemma is_digit_value c : is_digit c = true -> 0 <= digit_value c <= 9.
Proof.
  unfold is_digit, in_range, digit_value. rewrite andb_true_iff, !Z.leb_le. lia.
Qed.

Lemma matches_exactly n p r m :
  matches (exactly n p :: r) m ->
  exists run rest, m = run ++ rest /\ length run = n
                   /\ Forall (fun c => p c = true) run /\ matches r rest.
Proof.
  intros H. inversion H as [|it r' run rest Hc Hlo Hhi Hr]; subst.
  simpl in *. specialize (Hhi n eq_refl).
  exists run, rest. repeat split; auto. lia.
Qed.

Ltac split_run H :=
  apply matches_exactly in H as (?run & ?rest & -> & ?Hlen & ?Hcls & H).

Ltac run_of_length :=
  repeat match goal with
    | Hl : length ?l = _ |- _ =>
        is_var l; destruct l; simpl in Hl; try discriminate Hl;
        try (injection Hl as Hl)
    | Hl : length [] = 0%nat |- _ => clear Hl
    end.

Ltac class_facts :=
  repeat match goal with
    | H : Forall _ (_ :: _) |- _ => apply Forall_cons_1 in H as [? H]
    | H : Forall _ [] |- _ => clear H
    | H : is_char _ _ = true |- _ => apply is_char_eq in H; subst
    end.

Lemma matches_dmy_short m :
  matches (fst dmy_short_pattern) m ->
  exists d1 d2 m1 m2 y1 y2,
    m = [d1; d2; "/"; m1; m2; "/"; y1; y2]%char
    /\ is_digit d1 = true /\ is_digit d2 = true /\ is_digit m1 = true
    /\ is_digit m2 = true /\ is_digit y1 = true /\ is_digit y2 = true.
Proof.
  simpl. unfold lit. intros H.
  do 5 split_run H. inversion H; subst. run_of_length. class_facts.
  simpl. unfold digit in *. eauto 15.
Qed.

Lemma digit_not_char a c : is_digit c = true -> is_digit a = false -> is_char a c = false.
Proof.
  intros Hc Ha. destruct (is_char a c) eqn:E; [|reflexivity].
  apply is_char_eq in E. subst. congruence.
Qed.

Lemma remove_commas_no_comma s :
  Forall (fun c => is_char "," c = false) s -> remove_commas s = s.
Proof.
  unfold remove_commas, str_remove. induction 1 as [|c s Hc Hs IH]; [reflexivity|].
  cbn [replace_from starts_with list_ascii_of_string].
  unfold is_char in Hc. rewrite Hc. cbn [andb]. f_equal. exact IH.
Qed.

Lemma take_d_two_digits a b s v r :
  is_digit a = true -> is_digit b = true ->
  take_d (a :: b :: s) = Some (v, r) ->
  (r = s /\ v = digits_value [a; b]) \/ (r = b :: s).
Proof.
  intros Ha Hb. unfold take_d. rewrite (digit_not_char " " a) by auto.
  cbn [andb].
  repeat match goal with
    | |- context [if ?c then _ else _] => destruct c
    end; intros [= <- <-]; auto.
Qed.

Lemma take_m_two_digits a b s v r :
  is_digit a = true -> is_digit b = true ->
  take_m (a :: b :: s) = Some (v, r) ->
  (r = s /\ v = digits_value [a; b]) \/ (r = b :: s).
Proof.
  intros Ha Hb. unfold take_m.
  repeat match goal with
    | |- context [if ?c then _ else _] => destruct c
    end; intros [= <- <-]; auto.
Qed.

(** ['%d/%m/%y'] on two digits, a slash, two digits, a slash, two digits. *)
Lemma strptime_dmy_short d1 d2 m1 m2 y1 y2 dt :
  is_digit d1 = true -> is_digit d2 = true -> is_digit m1 = true ->
  is_digit m2 = true -> is_digit y1 = true -> is_digit y2 = true ->
  strptime [d1; d2; "/"; m1; m2; "/"; y1; y2]%char (snd dmy_short_pattern) = Some dt ->
  day dt = digits_value [d1; d2] /\ month dt = digits_value [m1; m2]
  /\ year dt = (if digits_value [y1; y2] <=? 68 then digits_value [y1; y2] + 2000
                else digits_value [y1; y2] + 1900).
Proof.
  intros Hd1 Hd2 Hm1 Hm2 Hy1 Hy2. unfold strptime. cbn [snd dmy_short_pattern take_format].
  unfold take_directive at 1.
  destruct (take_d _) as [[v r]|] eqn:Hd; [|discriminate].
  apply take_d_two_digits in Hd as [[-> ->] | ->]; auto.
  2:{ cbn [take_format take_directive]. rewrite (digit_not_char "/" d2) by auto. discriminate. }
  cbn [take_format]. unfold take_directive at 1.
  change (is_char "/" "/") with true. cbv iota beta.
  unfold take_directive at 1.
  destruct (take_m _) as [[v r]|] eqn:Hm; [|discriminate].
  apply take_m_two_digits in Hm as [[-> ->] | ->]; auto.
  2:{ cbn [take_format take_directive]. rewrite (digit_not_char "/" m2) by auto. discriminate. }
  cbn [take_format]. unfold take_directive at 1.
  change (is_char "/" "/") with true. cbv iota beta.
  unfold take_directive, take_y. rewrite Hy1, Hy2. cbn [andb take_format year month day].
  destruct (valid_date _); [|discriminate]. intros [= <-]. auto.
Qed.

Lemma two_digits_value a b :
  is_digit a = true -> is_digit b = true -> 0 <= digits_value [a; b] <= 99.
Proof.
  intros Ha Hb. apply is_digit_value in Ha, Hb.
  unfold digits_value. cbn [fold_left]. lia.
Qed.

Lemma digit_no_comma c : is_digit c = true -> is_char "," c = false.
Proof. intros H. apply digit_not_char; [assumption | reflexivity]. Qed.

(** C9.  When the date of a line comes from the DD/MM/YY pattern, the
    match is two digits, a slash, two digits, a slash and two digits YY,
    and the year of the date is 2000 + YY for YY from 00 to 68 and
    1900 + YY for YY from 69 to 99; the result of [parse_date] is the
    normal form of that date.  "01/02/69" is read as 1969-02-01 and
    "01/02/24" as 2024-02-01. *)
Theorem two_digit_year_pivot :
  (forall t dt,
      recognized_via 3 t dt ->
      exists d1 d2 m1 m2 y1 y2,
        re_search (fst dmy_short_pattern) t
          = Some [d1; d2; "/"; m1; m2; "/"; y1; y2]%char
        /\ is_digit y1 = true /\ is_digit y2 = true
        /\ 0 <= digits_value [y1; y2] <= 99
        /\ (digits_value [y1; y2] <= 68 -> year dt = 2000 + digits_value [y1; y2])
        /\ (69 <= digits_value [y1; y2] -> year dt = 1900 + digits_value [y1; y2])
        /\ month dt = digits_value [m1; m2] /\ day dt = digits_value [d1; d2]
        /\ parse_date t = Some (strftime dt))
  /\ (recognized_via 3 (py "01/02/69") (Date 1969 2 1)
      /\ parse_date (py "01/02/69") = Some (py "1969-02-01"))
  /\ (recognized_via 3 (py "01/02/24") (Date 2024 2 1)
      /\ parse_date (py "01/02/24") = Some (py "2024-02-01")).
Proof.
  assert (Hex : forall t dt, attempt dmy_short_pattern t = Some dt ->
            (forall j q, (j < 3)%nat -> nth_error patterns j = Some q ->
                         attempt q t = None) ->
            recognized_via 3 t dt).
  { intros t dt Ha Hb. exists dmy_short_pattern. auto. }
  assert (Hearlier : forall t,
            attempt iso_pattern t = None -> attempt dmy_slash_pattern t = None ->
            attempt dmy_dash_pattern t = None ->
            forall j q, (j < 3)%nat -> nth_error patterns j = Some q ->
                        attempt q t = None).
  { intros t H0 H1 H2 [|[|[|j]]] q Hj Hq; [| | | lia];
      injection Hq as <-; assumption. }
  split; [|split; (split; [apply Hex; [|apply Hearlier] |]); vm_compute; reflexivity].
  intros t dt Hvia.
  assert (Hp : parse_date t = Some (strftime dt)).
  { apply parse_date_some. exists 3%nat, dt. auto. }
  destruct Hvia as (p & Hp4 & Ha & _). injection Hp4 as <-.
  unfold attempt in Ha.
  destruct (re_search (fst dmy_short_pattern) t) as [m|] eqn:Hs; [|discriminate].
  pose proof Hs as Hm. apply re_search_some in Hm as (_ & _ & _ & Hm & _).
  apply matches_dmy_short in Hm
    as (d1 & d2 & m1 & m2 & y1 & y2 & -> & Hd1 & Hd2 & Hm1 & Hm2 & Hy1 & Hy2).
  rewrite remove_commas_no_comma in Ha.
  2:{ repeat constructor; auto using digit_no_comma. }
  apply strptime_dmy_short in Ha as (Hday & Hmonth & Hyear); auto.
  exists d1, d2, m1, m2, y1, y2.
  pose proof (two_digits_value y1 y2 Hy1 Hy2) as Hyy.
  repeat split; auto; try lia.
  - intros Hle. rewrite Hyear. destruct (Z.leb_spec (digits_value [y1; y2]) 68); lia.
  - intros Hge. rewrite Hyear. destruct (Z.leb_spec (digits_value [y1; y2]) 68); lia.
Qed.

Lemma two_digit_year_pivot_witness :
  recognized_via 3 (py "01/02/69") (Date 1969 2 1)
  /\ exists d1 d2 m1 m2 y1 y2,
        re_search (fst dmy_short_pattern) (py "01/02/69")
          = Some [d1; d2; "/"; m1; m2; "/"; y1; y2]%char
        /\ is_digit y1 = true /\ is_digit y2 = true
        /\ 0 <= digits_value [y1; y2] <= 99
        /\ (digits_value [y1; y2] <= 68 -> year (Date 1969 2 1) = 2000 + digits_value [y1; y2])
        /\ (69 <= digits_value [y1; y2] -> year (Date 1969 2 1) = 1900 + digits_value [y1; y2])
        /\ month (Date 1969 2 1) = digits_value [m1; m2]
        /\ day (Date 1969 2 1) = digits_value [d1; d2]
        /\ parse_date (py "01/02/69") = Some (strftime (Date 1969 2 1)).
Proof.
  assert (H : recognized_via 3 (py "01/02/69") (Date 1969 2 1)).
  { exists dmy_short_pattern. split; [reflexivity|]. split; [vm_compute; reflexivity|].
    intros [|[|[|j]]] q Hj Hq; [| | | lia];
      injection Hq as <-; vm_compute; reflexivity. }
  split; [exact H|].
  exact (proj1 two_digit_year_pivot (py "01/02/69") (Date 1969 2 1) H).
Defined.

(** ** Worked examples *)

(** C1, as stated, does not hold: the candidate of the specification is not
    what the extractor yields for the line. *)
Lemma grocery_line_claimed_candidate_not_produced :
  extract_line grocery_line
  <> Some (Txn (py "2024-03-15") (py "GROCERY STORE PURCHASE")
               (decimal_to_float false 123456 2)).
Proof. vm_compute. discriminate. Qed.

(** C1, amended.  For the line "03/15/2024 GROCERY STORE PURCHASE 1,234.56"
    the extractor yields no candidate: the DD/MM/YYYY pattern matches
    "03/15/2024" and reads 03 as the day, so 15 is the month and the match
    is not a date; no other pattern finds a date in the line.  With the day
    written first, "15/03/2024 GROCERY STORE PURCHASE 1,234.56", it yields
    the date 2024-03-15, the description GROCERY STORE PURCHASE and the
    amount 1234.56. *)
Theorem grocery_line_rejected :
  re_search (fst dmy_slash_pattern) grocery_line = Some (py "03/15/2024")
  /\ take_d (py "03/15/2024") = Some (3, py "/15/2024")
  /\ strptime (py "03/15/2024") (snd dmy_slash_pattern) = None
  /\ map (fun p => attempt p grocery_line) patterns = [None; None; None; None; None]
  /\ parse_date grocery_line = None
  /\ extract_line grocery_line = None
  /\ extract_transactions_from_lines [grocery_line] = []
  /\ extract_line grocery_line_day_first
     = Some (Txn (py "2024-03-15") (py "GROCERY STORE PURCHASE")
                 (decimal_to_float false 123456 2)).
Proof. vm_compute. repeat split; reflexivity. Qed.

(** C10.  The line "Jan 5 2024 COFFEE SHOP 12.50" takes its date from the
    month-name pattern and yields a candidate whose description is
    "Jan 5 2024 COFFEE SHOP": the two patterns that clear dates from the
    description are numeric, and the month-name date found by [parse_date]
    stays in the text. *)
Theorem month_name_date_stays_in_description :
  recognized_via 4 coffee_line (Date 2024 1 5)
  /\ re_search (fst month_name_pattern) coffee_line = Some (py "Jan 5 2024")
  /\ re_findall amount_re coffee_line = [py "12.50"]
  /\ re_remove short_date_re (py "Jan 5 2024 COFFEE SHOP ") = py "Jan 5 2024 COFFEE SHOP "
  /\ re_remove iso_date_re (py "Jan 5 2024 COFFEE SHOP ") = py "Jan 5 2024 COFFEE SHOP "
  /\ extract_line coffee_line
     = Some (Txn (py "2024-01-05") (py "Jan 5 2024 COFFEE SHOP")
                 (decimal_to_float false 1250 2)).
Proof.
  split; [|vm_compute; repeat split; reflexivity].
  exists month_name_pattern. split; [reflexivity|]. split; [vm_compute; reflexivity|].
  intros [|[|[|[|j]]]] q Hj Hq; [| | | | lia]; injection Hq as <-; vm_compute; reflexivity.
Qed.

(** ** [parse_amount] *)

Lemma remove_commas_filter s :
  remove_commas s = List.filter (fun c => negb (is_char "," c)) s.
Proof.
  unfold remove_commas, str_remove. induction s as [|c s IH]; [reflexivity|].
  cbn [replace_from starts_with list_ascii_of_string List.filter length].
  unfold is_char. destruct (Ascii.eqb "," c); cbn [andb negb]; [exact IH | f_equal; exact IH].
Qed.

Lemma SFabs_decimal neg n k :
  SFabs (decimal_to_float neg n k) = decimal_to_float false n k.
Proof.
  unfold decimal_to_float. destruct n as [|m|m]; try reflexivity.
  unfold SFdiv. destruct (SFdiv_core_binary _ _ _ _ _ _) as [[mz ez] lz].
  unfold binary_round_aux.
  destruct (shr_fexp _ _ mz ez lz) as [mrs e'].
  destruct (shr_fexp _ _ _ e' loc_Exact) as [mrs' e''].
  destruct (shr_m mrs'); try reflexivity.
  destruct (_ <=? _); reflexivity.
Qed.

Lemma span_digits_spec s ip r :
  span_digits s = (ip, r) ->
  s = ip ++ r /\ Forall (fun c => is_digit c = true) ip
  /\ match r with [] => True | c :: _ => is_digit c = false end.
Proof.
  revert ip r. induction s as [|c s IH]; intros ip r; simpl.
  - intros [= <- <-]. auto.
  - destruct (is_digit c) eqn:E.
    + destruct (span_digits s) as [ds r']. intros [= <- <-].
      destruct (IH ds r' eq_refl) as (-> & Hd & Hr). repeat split; auto.
    + intros [= <- <-]. auto.
Qed.

Lemma span_digits_app ip r :
  Forall (fun c => is_digit c = true) ip ->
  match r with [] => True | c :: _ => is_digit c = false end ->
  span_digits (ip ++ r) = (ip, r).
Proof.
  intros Hd Hr. induction Hd as [|c ip Hc Hd IH]; simpl.
  - destruct r as [|c r]; [reflexivity|]. simpl. rewrite Hr. reflexivity.
  - rewrite Hc, IH. reflexivity.
Qed.

Lemma forallb_digits fp :
  forallb is_digit fp = true <-> Forall (fun c => is_digit c = true) fp.
Proof. rewrite forallb_forall, List.Forall_forall. reflexivity. Qed.

Lemma unsigned_float_numeric neg s x :
  unsigned_float neg s = Some x <->
  exists ip fp dot,
    s = ip ++ (if dot : bool then py "." ++ fp else [])
    /\ (dot = false -> fp = [])
    /\ ip ++ fp <> []
    /\ Forall (fun c => is_digit c = true) ip
    /\ Forall (fun c => is_digit c = true) fp
    /\ x = decimal_to_float neg (digits_value (ip ++ fp)) (length fp).
Proof.
  unfold unsigned_float. split.
  - destruct (span_digits s) as [ip r] eqn:Hs.
    apply span_digits_spec in Hs as (-> & Hip & Hr).
    destruct r as [|c fp].
    + destruct ip as [|d ip]; [discriminate|]. intros [= <-].
      exists (d :: ip), [], false. rewrite !app_nil_r. repeat split; auto; try discriminate.
    + destruct (is_char "." c) eqn:Hc; [|discriminate]. cbn [andb].
      destruct (forallb is_digit fp) eqn:Hfp; [|discriminate].
      apply is_char_eq in Hc. subst c. apply forallb_digits in Hfp.
      destruct (ip ++ fp) as [|d ds] eqn:Hds; [discriminate|]. intros [= <-].
      exists ip, fp, true. rewrite Hds. repeat split; auto; try discriminate.
  - intros (ip & fp & dot & -> & Hdot & Hne & Hip & Hfp & ->).
    destruct dot.
    + rewrite (span_digits_app ip (py "." ++ fp)); [|auto|reflexivity].
      cbn [list_ascii_of_string app]. change (is_char "." ".") with true. cbn [andb].
      apply forallb_digits in Hfp. rewrite Hfp.
      destruct (ip ++ fp) as [|d ds] eqn:Hds; [congruence|]. reflexivity.
    + rewrite (Hdot eq_refl) in *. rewrite app_nil_r in *.
      rewrite <- (app_nil_r ip) at 1. rewrite span_digits_app by auto.
      destruct ip; [congruence | reflexivity].
Qed.

(** [float] accepts the decimal numerals and nothing else. *)
Lemma py_float_numeric s x :
  py_float s = Some x <->
  exists neg n k, numeric s neg n k /\ x = decimal_to_float neg n k.
Proof.
  split.
  - unfold py_float. destruct s as [|c s]; [discriminate|].
    destruct (is_char "-" c) eqn:Hc.
    + apply is_char_eq in Hc. subst c. intros H.
      apply unsigned_float_numeric in H
        as (ip & fp & dot & -> & Hdot & Hne & Hip & Hfp & ->).
      exists true. destruct dot.
      * eexists _, _. split; [|reflexivity]. apply (numeric_fraction true ip fp); auto.
      * rewrite (Hdot eq_refl) in *. rewrite !app_nil_r in *.
        eexists _, _. split; [|reflexivity]. apply (numeric_integer true ip); auto.
    + intros H.
      apply unsigned_float_numeric in H
        as (ip & fp & dot & Hs & Hdot & Hne & Hip & Hfp & ->).
      rewrite Hs. exists false. destruct dot.
      * eexists _, _. split; [|reflexivity]. apply (numeric_fraction false ip fp); auto.
      * rewrite (Hdot eq_refl) in *. rewrite !app_nil_r in *.
        eexists _, _. split; [|reflexivity]. apply (numeric_integer false ip); auto.
  - intros (neg & n & k & Hn & ->).
    assert (Hu : forall ip fp dot,
               (dot = false -> fp = []) -> ip ++ fp <> [] ->
               Forall (fun c => is_digit c = true) ip ->
               Forall (fun c => is_digit c = true) fp ->
               py_float (sign_text neg ++ ip ++ (if dot : bool then py "." ++ fp else []))
               = Some (decimal_to_float neg (digits_value (ip ++ fp)) (length fp))).
    { intros ip fp dot Hdot Hne Hip Hfp.
      assert (Hun : unsigned_float neg (ip ++ (if dot then py "." ++ fp else []))
                    = Some (decimal_to_float neg (digits_value (ip ++ fp)) (length fp))).
      { apply unsigned_float_numeric. exists ip, fp, dot. repeat split; auto. }
      destruct neg; [exact Hun|]. cbn [sign_text app].
      unfold py_float.
      destruct (ip ++ (if dot then py "." ++ fp else [])) as [|c u] eqn:Hs.
      - unfold unsigned_float in Hun. simpl in Hun. discriminate.
      - destruct (is_char "-" c) eqn:Hc; [|exact Hun]. exfalso.
        apply is_char_eq in Hc. subst c.
        destruct ip as [|d ip].
        + destruct dot; [discriminate Hs|]. rewrite (Hdot eq_refl) in Hne. auto.
        + injection Hs as -> _. inversion Hip; subst. discriminate. }
    destruct Hn as [neg ip Hne Hip | neg ip fp Hne Hip Hfp].
    + specialize (Hu ip [] false). rewrite !app_nil_r in Hu. apply Hu; auto.
    + apply (Hu ip fp true); auto; discriminate.
Qed.

Lemma unsigned_float_abs neg s :
  option_map SFabs (unsigned_float neg s) = option_map SFabs (unsigned_float false s).
Proof.
  unfold unsigned_float. destruct (span_digits s) as [ip r].
  destruct r as [|c fp].
  - destruct ip; [reflexivity|]. cbn [option_map]. rewrite !SFabs_decimal. reflexivity.
  - destruct (is_char "." c && forallb is_digit fp); [|reflexivity].
    destruct (ip ++ fp); [reflexivity|]. cbn [option_map]. rewrite !SFabs_decimal.
    reflexivity.
Qed.

Lemma parse_amount_unfold t :
  parse_amount t =
  match List.filter amount_char t with
  | [] => None
  | _ :: _ => option_map SFabs (py_float (remove_commas (List.filter amount_char t)))
  end.
Proof.
  unfold parse_amount. destruct (List.filter amount_char t); [reflexivity|].
  destruct (py_float _); reflexivity.
Qed.

Lemma amount_char_cases c :
  amount_char c = true <->
  is_digit c = true \/ c = "."%char \/ c = ","%char \/ c = "-"%char.
Proof.
  unfold amount_char. rewrite !orb_true_iff, !is_char_eq. tauto.
Qed.

(** C6, as stated, does not hold: a minus sign that is not leading is kept
    as well, and makes the text non-numeric, where the cleaning of the
    specification would drop it and read 45.00. *)
Lemma parse_amount_inner_minus_not_stripped :
  parse_amount (py "4-5.00") = None
  /\ parse_amount_leading_minus (py "4-5.00") = Some (decimal_to_float false 45 0).
Proof. vm_compute. split; reflexivity. Qed.

(** C6, amended.  [parse_amount] strips every character except digits,
    commas, periods and minus signs (every minus sign, wherever it stands),
    removes the commas, reads the rest as a decimal numeral and returns the
    absolute value of the binary64 it denotes; it returns none exactly when
    nothing is left by the stripping or what is left after the commas are
    removed is not a numeral.  A leading minus sign does not change the
    result: "-45.00" and "45.00" both give 45.0. *)
Theorem parse_amount_keeps_every_minus :
  (forall c, amount_char c = true <->
             is_digit c = true \/ c = "."%char \/ c = ","%char \/ c = "-"%char)
  /\ (forall s, remove_commas s = List.filter (fun c => negb (is_char "," c)) s)
  /\ (forall t v,
        parse_amount t = Some v <->
        exists neg n k,
          numeric (remove_commas (List.filter amount_char t)) neg n k
          /\ v = decimal_to_float false n k)
  /\ (forall t,
        parse_amount t = None <->
        List.filter amount_char t = []
        \/ ~ exists neg n k,
               numeric (remove_commas (List.filter amount_char t)) neg n k)
  /\ (forall t, Forall (fun c => c <> "-"%char) t ->
                parse_amount ("-"%char :: t) = parse_amount t)
  /\ parse_amount (py "-45.00") = Some (decimal_to_float false 45 0)
  /\ parse_amount (py "45.00") = Some (decimal_to_float false 45 0).
Proof.
  assert (Hsome : forall t v,
        parse_amount t = Some v <->
        exists neg n k,
          numeric (remove_commas (List.filter amount_char t)) neg n k
          /\ v = decimal_to_float false n k).
  { intros t v. rewrite parse_amount_unfold. split.
    - destruct (List.filter amount_char t) as [|c cl] eqn:Hf; [discriminate|].
      destruct (py_float _) as [x|] eqn:Hx; [|discriminate]. intros [= <-].
      apply py_float_numeric in Hx as (neg & n & k & Hn & ->).
      exists neg, n, k. split; [assumption | apply SFabs_decimal].
    - intros (neg & n & k & Hn & ->).
      destruct (List.filter amount_char t) as [|c cl] eqn:Hf.
      + exfalso. inversion Hn as [g ip Hne Hip Heq | g ip fp Hne Hip Hfp Heq];
          destruct g, ip; cbn in Heq; try discriminate; congruence.
      + assert (Hx : py_float (remove_commas (c :: cl)) = Some (decimal_to_float neg n k))
          by (apply py_float_numeric; eauto).
        rewrite Hx. cbn [option_map]. rewrite SFabs_decimal. reflexivity. }
  split; [exact amount_char_cases|]. split; [exact remove_commas_filter|].
  split; [exact Hsome|]. split; [|split; [|vm_compute; split; reflexivity]].
  - intros t. split.
    + intros Hnone.
      destruct (List.filter amount_char t) as [|c cl] eqn:Hf; [left; reflexivity|].
      right. intros (neg & n & k & Hn).
      assert (parse_amount t = Some (decimal_to_float false n k)) as Hs.
      { apply Hsome. rewrite Hf. eauto. }
      congruence.
    + intros [Hempty | Hnot].
      * rewrite parse_amount_unfold, Hempty. reflexivity.
      * destruct (parse_amount t) as [v|] eqn:Hp; [|reflexivity].
        exfalso. apply Hnot. apply Hsome in Hp as (neg & n & k & Hn & _). eauto.
  - intros t Ht. rewrite !parse_amount_unfold.
    cbn [List.filter]. change (amount_char "-") with true. cbv iota.
    rewrite !remove_commas_filter. cbn [List.filter]. change (is_char "," "-") with false.
    cbn [negb]. cbv iota.
    set (x := List.filter _ (List.filter amount_char t)).
    assert (Hx : match x with [] => True | c :: _ => is_char "-" c = false end).
    { subst x. destruct (List.filter _ (List.filter amount_char t)) as [|c u] eqn:Hf;
        [exact I|].
      assert (Hin : In c (c :: u)) by (left; reflexivity).
      rewrite <- Hf in Hin. apply filter_In in Hin as [Hin _].
      apply filter_In in Hin as [Hin _]. rewrite List.Forall_forall in Ht.
      specialize (Ht c Hin). destruct (is_char "-" c) eqn:E; [|reflexivity].
      apply is_char_eq in E. contradiction. }
    assert (Hpy : option_map SFabs (py_float x)
                  = option_map SFabs (unsigned_float true x)).
    { unfold py_float. destruct x as [|c u]; [reflexivity|]. rewrite Hx.
      symmetry. apply unsigned_float_abs. }
    unfold py_float at 1. change (is_char "-" "-") with true. cbv iota.
    destruct (List.filter amount_char t) as [|c u] eqn:Hf.
    + subst x. reflexivity.
    + symmetry. exact Hpy.
Qed.

Lemma parse_amount_keeps_every_minus_witness :
  Forall (fun c => c <> "-"%char) (py "45.00")
  /\ parse_amount ("-"%char :: py "45.00") = parse_amount (py "45.00").
Proof.
  assert (H : Forall (fun c => c <> "-"%char) (py "45.00"))
    by (repeat constructor; discriminate).
  split; [exact H|].
  exact (proj1 (proj2 (proj2 (proj2 (proj2 parse_amount_keeps_every_minus)))) _ H).
Defined.

(** ** Lines without an amount *)

Lemma matches_amount_re m : matches amount_re m -> amount_shape m.
Proof.
  unfold amount_re, lit. intros H.
  inversion H as [|it r run rest Hrun Hlo _ Hrest]; subst. clear H.
  cbn [cls lo plus] in *.
  do 2 split_run Hrest. inversion Hrest; subst. run_of_length. class_facts.
  exists run. eexists _, _. rewrite app_nil_r. split; [reflexivity|].
  repeat split; auto. intros ->. simpl in Hlo. lia.
Qed.

Lemma extract_line_some_amount line txn :
  extract_line line = Some txn -> exists m, In m (re_findall amount_re line).
Proof.
  unfold extract_line. destruct (parse_date line) as [[|? ?]|]; try discriminate.
  destruct (re_findall amount_re line) as [|m ms]; [discriminate|].
  intros _. exists m. left. reflexivity.
Qed.

Lemma grouped_digits_last run :
  grouped_digits run -> exists run' d, run = run' ++ [d] /\ is_digit d = true.
Proof.
  induction 1 as [d Hd | d s Hd Hs (run' & e & -> & He) | d s Hd Hs (run' & e & -> & He)].
  - exists [], d. auto.
  - exists (d :: run'), e. auto.
  - exists (d :: ","%char :: run'), e. auto.
Qed.

Lemma digit_then_period_app pre d post :
  is_digit d = true -> digit_then_period (pre ++ d :: "."%char :: post) = true.
Proof.
  intros Hd. induction pre as [|c pre IH].
  - cbn. rewrite Hd. reflexivity.
  - cbn [app]. destruct pre as [|c' pre].
    + cbn [app] in *. cbn [digit_then_period]. cbn [digit_then_period] in IH.
      rewrite IH. apply orb_true_r.
    + cbn [app] in *. change (digit_then_period (c :: c' :: pre ++ d :: "."%char :: post))
        with ((is_digit c && is_char "." c')
              || digit_then_period (c' :: pre ++ d :: "."%char :: post)).
      rewrite IH. apply orb_true_r.
Qed.

Lemma grouped_amount_digit_then_period t :
  has_factor grouped_amount_shape t -> digit_then_period t = true.
Proof.
  intros (pre & m & post & -> & run & d1 & d2 & -> & Hrun & _).
  apply grouped_digits_last in Hrun as (run' & d & -> & Hd).
  replace (pre ++ ((run' ++ [d]) ++ py "." ++ [d1; d2]) ++ post)
    with ((pre ++ run') ++ d :: "."%char :: ([d1; d2] ++ post)).
  - apply digit_then_period_app. assumption.
  - cbn [list_ascii_of_string]. rewrite <- !app_assoc. reflexivity.
Qed.

(** C8, as stated, does not hold: ",.50" has no digit before the decimal
    point, so the line contains no substring of the shape of the
    specification, and yet it yields a candidate, of amount 0.5. *)
Lemma comma_amount_line_extracted :
  ~ has_factor grouped_amount_shape comma_amount_line
  /\ extract_line comma_amount_line
     = Some (Txn (py "2024-01-05") (py "20 COFFEE") (decimal_to_float false 5 1)).
Proof.
  split; [|vm_compute; reflexivity].
  intros H. apply grouped_amount_digit_then_period in H. vm_compute in H. discriminate.
Qed.

(** C8, amended.  A line with no substring made of one or more digits or
    commas followed by a decimal point and two digits yields no candidate;
    the rejection is the absent result [None], and [extract_line] is a
    total function: no input makes it fail. *)
Theorem no_amount_no_candidate line :
  ~ has_factor amount_shape line ->
  re_findall amount_re line = []
  /\ extract_line line = None
  /\ extract_transactions_from_lines [line] = [].
Proof.
  intros Hno.
  assert (Hnil : re_findall amount_re line = []).
  { destruct (re_findall amount_re line) as [|m l] eqn:E; [reflexivity|]. exfalso.
    assert (Hin : In m (findall_from amount_re 0 line))
      by (unfold re_findall in E; rewrite E; left; reflexivity).
    apply findall_from_factor in Hin as (pre & post & -> & Hm).
    apply Hno. exists pre, m, post. split; [reflexivity|].
    apply matches_amount_re. assumption. }
  assert (Hline : extract_line line = None).
  { destruct (extract_line line) as [txn|] eqn:E; [|reflexivity].
    apply extract_line_some_amount in E as [m Hin]. rewrite Hnil in Hin. destruct Hin. }
  repeat split; auto. cbn [extract_transactions_from_lines]. rewrite Hline. reflexivity.
Qed.

Lemma no_amount_no_candidate_witness :
  ~ has_factor amount_shape (py "Page 3 of 10")
  /\ re_findall amount_re (py "Page 3 of 10") = []
  /\ extract_line (py "Page 3 of 10") = None
  /\ extract_transactions_from_lines [py "Page 3 of 10"] = [].
Proof.
  assert (H : ~ has_factor amount_shape (py "Page 3 of 10")).
  { intros (pre & m & post & Ht & run & d1 & d2 & -> & _).
    assert (Hin : In "."%char (py "Page 3 of 10")).
    { rewrite Ht. apply in_or_app. right. apply in_or_app. left.
      apply in_or_app. right. left. reflexivity. }
    cbn in Hin. intuition discriminate. }
  split; [exact H|]. exact (no_amount_no_candidate _ H).
Defined.

(** ** Deduplication *)

Lemma separator_split (sep : ascii) (a1 a2 b1 b2 : text) :
  ~ In sep a1 -> ~ In sep a2 ->
  a1 ++ sep :: b1 = a2 ++ sep :: b2 -> a1 = a2 /\ b1 = b2.
Proof.
  revert a2. induction a1 as [|c a1 IH]; intros [|c2 a2] H1 H2 H; cbn in *.
  - injection H as ->. auto.
  - injection H as -> _. tauto.
  - injection H as -> _. tauto.
  - injection H as -> H. destruct (IH a2) as [-> ->]; auto.
Qed.

Lemma strftime_chars dt :
  Forall (fun c => is_digit c = true \/ c = "-"%char) (strftime dt).
Proof.
  assert (Hd : forall l, Forall (fun c => is_digit c = true) l ->
                 Forall (fun c => is_digit c = true \/ c = "-"%char) l).
  { intros l Hl. eapply List.Forall_impl; [|exact Hl]. auto. }
  assert (Hm : Forall (fun c => is_digit c = true \/ c = "-"%char) (py "-")).
  { constructor; [right; reflexivity | constructor]. }
  unfold strftime. rewrite !Forall_app. repeat split; auto; apply Hd.
  - unfold show_year.
    repeat match goal with |- context [if ?b then _ else _] => destruct b end;
      repeat constructor; apply digit_char_is_digit.
  - repeat constructor; apply digit_char_is_digit.
  - repeat constructor; apply digit_char_is_digit.
Qed.

Lemma extract_line_date line txn :
  extract_line line = Some txn -> parse_date line = Some (date txn).
Proof.
  unfold extract_line. destruct (parse_date line) as [[|c d]|]; try discriminate.
  destruct (List.last _ _); [|discriminate].
  destruct (parse_amount _); [|discriminate].
  destruct (not_positive _); [discriminate|].
  destruct (_ <? _)%nat; [|discriminate]. intros [= <-]. reflexivity.
Qed.

Lemma parse_date_strftime t iso :
  parse_date t = Some iso -> exists dt, valid_date dt = true /\ iso = strftime dt.
Proof.
  intros H. apply parse_date_some in H as (i & dt & (p & _ & Ha & _) & ->).
  exists dt. split; [|reflexivity]. unfold attempt in Ha.
  destruct (re_search _ _); [|discriminate]. unfold strptime in Ha.
  destruct (take_format _ _ _) as [[d [|? ?]]|]; try discriminate.
  destruct (valid_date d) eqn:V; [|discriminate]. congruence.
Qed.

(** A date made by [parse_date] has no underscore in it. *)
Lemma extract_line_date_chars line txn :
  extract_line line = Some txn -> ~ In "_"%char (date txn).
Proof.
  intros H. apply extract_line_date in H. apply parse_date_strftime in H as (dt & _ & ->).
  intros Hin. pose proof (strftime_chars dt) as Hc. rewrite List.Forall_forall in Hc.
  destruct (Hc _ Hin) as [Hd | Hd]; discriminate.
Qed.

Lemma bits_nonempty p : bits p <> [].
Proof. destruct p; discriminate. Qed.

Lemma bits_inj p q : bits p = bits q -> p = q.
Proof.
  revert q. induction p as [p IH | p IH |]; intros [q | q |]; cbn; intros H;
    try discriminate; try reflexivity.
  - injection H as H. f_equal. auto.
  - injection H as H. destruct (bits_nonempty _ H).
  - injection H as H. f_equal. auto.
  - injection H as H. destruct (bits_nonempty q). auto.
Qed.

Lemma bits_chars p : Forall (fun c => c = "0"%char \/ c = "1"%char) (bits p).
Proof.
  induction p; cbn; constructor; auto; constructor.
Qed.

Lemma show_exponent_inj e e' : show_exponent e = show_exponent e' -> e = e'.
Proof.
  destruct e, e'; cbn; intros H; try discriminate; try reflexivity;
    injection H as H; f_equal; apply bits_inj; assumption.
Qed.

Lemma binary_repr_inj x y : binary_repr x = binary_repr y -> x = y.
Proof.
  assert (Hp : forall p, ~ In "p"%char (bits p)).
  { intros p Hin. pose proof (bits_chars p) as Hc. rewrite List.Forall_forall in Hc.
    destruct (Hc _ Hin); discriminate. }
  destruct x as [s | s | | s m e], y as [s' | s' | | s' m' e'];
    cbn [binary_repr list_ascii_of_string]; intros H;
    try (destruct s; discriminate H); try (destruct s'; discriminate H);
    try reflexivity.
  - destruct s, s'; try discriminate H; reflexivity.
  - exfalso. injection H as _ H. destruct m' as [q | [q | q |] |]; cbn in H;
      try discriminate H; injection H as H; destruct q; discriminate H.
  - destruct s, s'; try discriminate H; reflexivity.
  - exfalso. injection H as _ H. destruct m'; discriminate H.
  - exfalso. injection H as _ H. destruct m as [q | [q | q |] |]; cbn in H;
      try discriminate H; injection H as H; destruct q; discriminate H.
  - exfalso. injection H as _ H. destruct m; discriminate H.
  - injection H as Hs H. apply separator_split in H as [Hm He]; [| apply Hp | apply Hp].
    apply bits_inj in Hm. apply show_exponent_inj in He.
    destruct s, s'; try discriminate Hs; subst; reflexivity.
Qed.

Lemma binary_repr_chars x : ~ In "_"%char (binary_repr x).
Proof.
  assert (Hb : forall p, ~ In "_"%char (bits p)).
  { intros p Hin. pose proof (bits_chars p) as Hc. rewrite List.Forall_forall in Hc.
    destruct (Hc _ Hin); discriminate. }
  destruct x as [s | s | | s m e]; cbn.
  - destruct s; cbn; intuition discriminate.
  - destruct s; cbn; intuition discriminate.
  - intuition discriminate.
  - intros [H | H]; [destruct s; discriminate|].
    apply in_app_or in H as [H | [H | H]]; [apply (Hb m H) | discriminate |].
    destruct e; cbn in H; [assumption | |]; destruct H as [H | H];
      try discriminate; apply (Hb _ H).
Qed.

Lemma key_fields_eq t u :
  key_fields t = key_fields u <->
  date t = date u /\ amount t = amount u
  /\ prefix 20 (description t) = prefix 20 (description u).
Proof.
  unfold key_fields. split.
  - intros H. repeat split.
    + exact (f_equal (fun x => fst (fst x)) H).
    + exact (f_equal (fun x => snd (fst x)) H).
    + exact (f_equal snd H).
  - intros (-> & -> & ->). reflexivity.
Qed.

Lemma first_occurrences_covers earlier txns t :
  In t txns ->
  key_fields t ∈ map key_fields earlier
  \/ exists u, In u (first_occurrences earlier txns) /\ key_fields u = key_fields t.
Proof.
  revert earlier. induction txns as [|txn txns IH]; intros earlier Hin; [destruct Hin|].
  cbn [first_occurrences].
  destruct Hin as [-> | Hin].
  - destruct (decide _) as [Hd | Hd]; [left; assumption|].
    right. exists t. split; [left|]; reflexivity.
  - destruct (IH (txn :: earlier) Hin) as [Hd | (u & Hu & Hk)].
    + cbn [map] in Hd. apply elem_of_cons in Hd as [Hd | Hd].
      * destruct (decide _) as [He | He]; [left; rewrite Hd; assumption|].
        right. exists txn. split; [left; reflexivity | symmetry; assumption].
      * left. assumption.
    + right. exists u. split; [|assumption].
      destruct (decide _); [|right]; assumption.
Qed.

Lemma first_occurrences_fresh earlier txns :
  NoDup (map key_fields (first_occurrences earlier txns))
  /\ forall u, In u (first_occurrences earlier txns) ->
               key_fields u ∉ map key_fields earlier.
Proof.
  revert earlier. induction txns as [|txn txns IH]; intros earlier;
    cbn [first_occurrences].
  - split; [constructor | intros u []].
  - destruct (IH (txn :: earlier)) as [Hnd Hfresh].
    assert (Hrest : forall u, In u (first_occurrences (txn :: earlier) txns) ->
                       key_fields u <> key_fields txn
                       /\ key_fields u ∉ map key_fields earlier).
    { intros u Hu. specialize (Hfresh u Hu). cbn [map] in Hfresh.
      rewrite not_elem_of_cons in Hfresh. exact Hfresh. }
    destruct (decide _) as [Hd | Hd].
    + split; [assumption|]. intros u Hu. apply (Hrest u Hu).
    + split.
      * cbn [map]. constructor; [|assumption].
        rewrite list_elem_of_In, in_map_iff. intros (u & Hk & Hu).
        destruct (Hrest u Hu) as [Hne _]. contradiction.
      * intros u [<- | Hu]; [assumption | apply (Hrest u Hu)].
Qed.

Section DedupeLoop.

Variable float_repr : spec_float -> text.

Lemma dedupe_loop_absorbs (seen seen' : gset text) (txns : list transaction) :
  seen' ⊆ seen ->
  dedupe_loop float_repr seen' (dedupe_loop float_repr seen txns)
  = dedupe_loop float_repr seen txns.
Proof.
  revert seen seen'. induction txns as [|txn txns IH]; intros seen seen' Hsub;
    cbn [dedupe_loop]; [reflexivity|].
  destruct (decide (key float_repr txn ∈ seen)) as [Hin | Hout].
  - apply IH. assumption.
  - cbn [dedupe_loop].
    destruct (decide (key float_repr txn ∈ seen')) as [Hin' | Hout'].
    + exfalso. apply Hout. apply Hsub. assumption.
    + f_equal. apply IH. intros k Hk.
      apply elem_of_union in Hk as [Hk | Hk]; apply elem_of_union;
        [left | right; apply Hsub]; assumption.
Qed.

(** C5.  Deduplication is idempotent: run on its own output, it returns
    that output unchanged. *)
Theorem dedupe_idempotent txns :
  dedupe float_repr (dedupe float_repr txns) = dedupe float_repr txns.
Proof. unfold dedupe. apply dedupe_loop_absorbs. reflexivity. Qed.

Lemma dedupe_loop_sublist (seen : gset text) (txns : list transaction) :
  sublist (dedupe_loop float_repr seen txns) txns.
Proof.
  revert seen. induction txns as [|txn txns IH]; intros seen; cbn [dedupe_loop].
  - constructor.
  - destruct (decide _); [apply sublist_cons | apply sublist_skip]; apply IH.
Qed.

Hypothesis float_repr_inj : forall x y, float_repr x = float_repr y -> x = y.
Hypothesis float_repr_chars : forall x, ~ In "_"%char (float_repr x).

(** The key determines its three fields, when the date has no underscore
    in it. *)
Lemma key_fields_of_key t u :
  ~ In "_"%char (date t) -> ~ In "_"%char (date u) ->
  key float_repr t = key float_repr u -> key_fields t = key_fields u.
Proof using float_repr_inj float_repr_chars.
  unfold key, key_fields. cbn [list_ascii_of_string app]. intros Ht Hu H.
  apply separator_split in H as [Hd H]; [|assumption|assumption].
  apply separator_split in H as [Ha Hp]; [|apply float_repr_chars|apply float_repr_chars].
  apply float_repr_inj in Ha. congruence.
Qed.

Lemma key_of_key_fields t u :
  key_fields t = key_fields u -> key float_repr t = key float_repr u.
Proof.
  intros H. apply key_fields_eq in H as (Hd & Ha & Hp).
  unfold key. rewrite Hd, Ha, Hp. reflexivity.
Qed.

(** C4.  Two candidates made by the extractor have equal keys only if
    they have the same date, the same amount and the same first 20
    characters of description: the underscores that join the fields
    cannot be taken for part of the date or of the amount. *)
Theorem key_separates_fields l1 l2 t1 t2 :
  extract_line l1 = Some t1 -> extract_line l2 = Some t2 ->
  key float_repr t1 = key float_repr t2 ->
  date t1 = date t2 /\ amount t1 = amount t2
  /\ prefix 20 (description t1) = prefix 20 (description t2).
Proof using float_repr_inj float_repr_chars.
  intros H1 H2 Hk.
  apply extract_line_date_chars in H1, H2.
  apply key_fields_eq. apply key_fields_of_key; assumption.
Qed.

Lemma dedupe_loop_first_occurrences
      (earlier : list transaction) (seen : gset text) (txns : list transaction) :
  Forall (fun t => ~ In "_"%char (date t)) earlier ->
  Forall (fun t => ~ In "_"%char (date t)) txns ->
  (forall k, k ∈ seen <-> exists u, In u earlier /\ key float_repr u = k) ->
  dedupe_loop float_repr seen txns = first_occurrences earlier txns.
Proof using float_repr_inj float_repr_chars.
  intros He Ht. revert earlier seen He.
  induction Ht as [|txn txns Hd Ht IH]; intros earlier seen He Hseen;
    cbn [dedupe_loop first_occurrences]; [reflexivity|].
  assert (Hiff : key float_repr txn ∈ seen
                 <-> key_fields txn ∈ map key_fields earlier).
  { rewrite Hseen, list_elem_of_In, in_map_iff. split.
    - intros (u & Hu & Hk). exists u. split; [|assumption].
      apply key_fields_of_key; auto.
      rewrite List.Forall_forall in He. auto.
    - intros (u & Hk & Hu). exists u. split; [assumption|].
      apply key_of_key_fields. assumption. }
  destruct (decide (key float_repr txn ∈ seen)) as [Hin | Hout];
    destruct (decide (key_fields txn ∈ map key_fields earlier)) as [Hin' | Hout'];
    try tauto.
  - apply IH; [constructor; assumption|].
    intros k. rewrite Hseen. split.
    + intros (u & Hu & Hk). exists u. split; [right|]; assumption.
    + intros (u & [<- | Hu] & Hk); [|eauto].
      apply Hseen. subst k. assumption.
  - f_equal. apply IH; [constructor; assumption|].
    intros k. rewrite elem_of_union, elem_of_singleton, Hseen. split.
    + intros [-> | (u & Hu & Hk)]; [exists txn; split; [left|]; reflexivity|].
      exists u. split; [right|]; assumption.
    + intros (u & [<- | Hu] & Hk); [left; auto | right; eauto].
Qed.

(** C3.  On candidates whose date has no underscore in it (every date made
    by [parse_date] is such), the loop emits exactly the candidates that
    no earlier candidate of the sequence matches on date, amount and
    first 20 characters of description, in the order of the input (a, b);
    every key of the input is kept once (c, d); what is emitted is the
    input record itself, with its whole description, and a later
    candidate with the same three fields is dropped whatever the rest of
    its description (e). *)
Theorem dedupe_first_occurrence_wins :
  (forall txns,
      Forall (fun t => ~ In "_"%char (date t)) txns ->
      dedupe float_repr txns = first_occurrences [] txns
      /\ sublist (dedupe float_repr txns) txns
      /\ (forall t, In t txns ->
            exists u, In u (dedupe float_repr txns) /\ key_fields u = key_fields t)
      /\ NoDup (map key_fields (dedupe float_repr txns)))
  /\ extract_transactions_from_lines [rent_line; rent_line_again]
     = [Txn (py "2024-01-05") (py "MONTHLY RENT PAYMENT FLAT 12 Main Street")
            (decimal_to_float false 950 0);
        Txn (py "2024-01-05") (py "MONTHLY RENT PAYMENT flat 12 main st")
            (decimal_to_float false 950 0)]
  /\ extract float_repr [rent_line; rent_line_again]
     = [Txn (py "2024-01-05") (py "MONTHLY RENT PAYMENT FLAT 12 Main Street")
            (decimal_to_float false 950 0)].
Proof using float_repr_inj float_repr_chars.
  assert (Hgen : forall txns,
      Forall (fun t => ~ In "_"%char (date t)) txns ->
      dedupe float_repr txns = first_occurrences [] txns).
  { intros txns Hd. unfold dedupe. apply dedupe_loop_first_occurrences; auto.
    intros k. split; [set_solver | intros (u & [] & _)]. }
  split; [|split; [vm_compute; reflexivity|]].
  - intros txns Hd. split; [auto|]. split; [apply dedupe_loop_sublist|].
    rewrite (Hgen txns Hd). split.
    + intros t Hin. destruct (first_occurrences_covers [] txns t Hin) as [Hin' | Hex].
      * apply elem_of_nil in Hin'. destruct Hin'.
      * exact Hex.
    + apply first_occurrences_fresh.
  - unfold extract. rewrite Hgen.
    + vm_compute. reflexivity.
    + vm_compute. repeat constructor; intuition discriminate.
Qed.

End DedupeLoop.

Lemma key_separates_fields_witness :
  let t1 := Txn (py "2024-01-05") (py "MONTHLY RENT PAYMENT FLAT 12 Main Street")
                (decimal_to_float false 950 0) in
  let t2 := Txn (py "2024-01-05") (py "MONTHLY RENT PAYMENT flat 12 main st")
                (decimal_to_float false 950 0) in
  (extract_line rent_line = Some t1 /\ extract_line rent_line_again = Some t2
   /\ key binary_repr t1 = key binary_repr t2)
  /\ (date t1 = date t2 /\ amount t1 = amount t2
      /\ prefix 20 (description t1) = prefix 20 (description t2)).
Proof.
  intros t1 t2.
  assert (H1 : extract_line rent_line = Some t1) by (vm_compute; reflexivity).
  assert (H2 : extract_line rent_line_again = Some t2) by (vm_compute; reflexivity).
  assert (Hk : key binary_repr t1 = key binary_repr t2) by (vm_compute; reflexivity).
  split; [auto|].
  exact (key_separates_fields binary_repr binary_repr_inj binary_repr_chars
           rent_line rent_line_again t1 t2 H1 H2 Hk).
Defined.

Lemma dedupe_first_occurrence_wins_witness :
  let txns := extract_transactions_from_lines [rent_line; rent_line_again] in
  Forall (fun t => ~ In "_"%char (date t)) txns
  /\ dedupe binary_repr txns = first_occurrences [] txns
  /\ sublist (dedupe binary_repr txns) txns
  /\ (forall t, In t txns ->
        exists u, In u (dedupe binary_repr txns) /\ key_fields u = key_fields t)
  /\ NoDup (map key_fields (dedupe binary_repr txns)).
Proof.
  intros txns.
  assert (H : Forall (fun t => ~ In "_"%char (date t)) txns).
  { vm_compute. repeat constructor; intuition discriminate. }
  split; [exact H|].
  exact (proj1 (dedupe_first_occurrence_wins binary_repr binary_repr_inj
                  binary_repr_chars) txns H).
Defined.

(** ** The shape of the output *)

Lemma iter_pos_preserves {A} (P : A -> Prop) (f : A -> A) :
  (forall x, P x -> P (f x)) -> forall p x, P x -> P (SpecFloat.iter_pos f p x).
Proof.
  intros Hf. induction p as [p IH | p IH |]; intros x Hx; cbn; auto.
Qed.

Lemma shr_1_nonneg mrs : 0 <= shr_m mrs -> 0 <= shr_m (shr_1 mrs).
Proof.
  destruct mrs as [m r s]. cbn. destruct m as [|[p|p|]|p]; cbn; lia.
Qed.

Lemma shr_fexp_nonneg prec emax m e l :
  0 <= m -> 0 <= shr_m (fst (shr_fexp prec emax m e l)).
Proof.
  intros Hm. unfold shr_fexp, shr.
  assert (H0 : 0 <= shr_m (shr_record_of_loc m l))
    by (destruct l as [|[]]; exact Hm).
  destruct (_ - _) as [|p|p]; cbn [fst]; auto.
  apply (iter_pos_preserves (fun x => 0 <= shr_m x)); auto using shr_1_nonneg.
Qed.

Lemma round_nearest_even_nonneg m l : 0 <= m -> 0 <= round_nearest_even m l.
Proof.
  intros Hm. destruct l as [|[]]; cbn; try lia. destruct (Z.even m); lia.
Qed.

Lemma binary_round_aux_not_negative prec emax m e l :
  0 <= m -> not_negative (binary_round_aux prec emax false m e l).
Proof.
  intros Hm. unfold binary_round_aux.
  pose proof (shr_fexp_nonneg prec emax m e l Hm) as H1.
  destruct (shr_fexp prec emax m e l) as [mrs' e']. cbn [fst] in H1.
  pose proof (shr_fexp_nonneg prec emax _ e' loc_Exact
                (round_nearest_even_nonneg _ (loc_of_shr_record mrs') H1)) as H2.
  destruct (shr_fexp prec emax _ e' loc_Exact) as [mrs'' e'']. cbn [fst] in H2.
  destruct (shr_m mrs''); [exact I | | lia].
  destruct (_ <=? _); exact I.
Qed.

Lemma decimal_to_float_not_negative n k : not_negative (decimal_to_float false n k).
Proof.
  unfold decimal_to_float. destruct n as [|m|m]; try exact I.
  unfold SFdiv, SFdiv_core_binary.
  set (m' := match _ - _ - _ with Z0 => Z.pos m | Z.pos _ => _ | Z.neg _ => 0 end).
  assert (Hm' : 0 <= m').
  { subst m'. destruct (_ - _ - _); try lia. apply Z.shiftl_nonneg. lia. }
  pose proof (Z_div_mod m' (Z.pos (Z.to_pos (10 ^ Z.of_nat k))) eq_refl) as Hdiv.
  destruct (Z.div_eucl m' _) as [q r]. cbn [xorb].
  apply binary_round_aux_not_negative. nia.
Qed.

Lemma parse_amount_not_negative t a : parse_amount t = Some a -> not_negative a.
Proof.
  rewrite parse_amount_unfold. destruct (List.filter amount_char t); [discriminate|].
  destruct (py_float _) as [x|] eqn:Hx; [|discriminate]. intros [= <-].
  apply py_float_numeric in Hx as (neg & n & k & _ & ->).
  rewrite SFabs_decimal. apply decimal_to_float_not_negative.
Qed.

Lemma positive_of_check a :
  not_negative a -> not_positive a = false -> positive_float a = true.
Proof.
  destruct a as [[]|[]| |[] m e]; cbn; intros H; try destruct H; try discriminate; reflexivity.
Qed.

Lemma split_words s : Forall word (split s).
Proof.
  induction s as [|c s IH]; cbn [split]; [constructor|].
  destruct (is_space c) eqn:Hc; [exact IH|].
  assert (Hone : word [c])
    by (split; [discriminate | constructor; [assumption | constructor]]).
  destruct s as [|c' s']; [constructor; [exact Hone | constructor]|].
  destruct (is_space c') eqn:Hc'; [constructor; assumption|].
  destruct (split (c' :: s')) as [|w ws]; [constructor; [exact Hone | constructor]|].
  inversion IH as [|? ? [Hne Hw] Hws]; subst.
  constructor; [|assumption]. split; [discriminate | constructor; assumption].
Qed.

Lemma single_spaced_word b w rest :
  word w -> single_spaced b (w ++ rest) = single_spaced false rest.
Proof.
  intros [Hne Hw]. revert b. induction Hw as [|c w Hc Hw IH]; intros b; [congruence|].
  cbn [app single_spaced]. rewrite Hc.
  destruct w as [|c' w']; [reflexivity|]. apply IH. discriminate.
Qed.

Lemma join_single_spaced ws : Forall word ws -> single_spaced true (join ws) = true.
Proof.
  induction 1 as [|w ws Hw Hws IH]; [reflexivity|]. cbn [join].
  destruct ws as [|w' ws'].
  - rewrite <- (app_nil_r w). rewrite single_spaced_word by assumption. reflexivity.
  - rewrite single_spaced_word by assumption. cbn [single_spaced].
    change (is_space " ") with true. cbv iota. exact IH.
Qed.

Lemma head_ok_app x y : x <> [] -> head_ok x -> head_ok (x ++ y).
Proof. destruct x; [congruence | auto]. Qed.

Lemma head_ok_all x : Forall (fun c => is_space c = false) x -> head_ok x.
Proof. destruct 1; [exact I | assumption]. Qed.

Lemma lstrip_head_ok x : head_ok x -> lstrip x = x.
Proof. destruct x as [|c x]; [reflexivity|]. cbn. intros ->. reflexivity. Qed.

Lemma join_nonempty w ws : word w -> join (w :: ws) <> [].
Proof.
  intros [Hne _]. cbn [join]. destruct ws; [assumption|]. destruct w; [congruence | discriminate].
Qed.

Lemma join_head_ok ws : Forall word ws -> head_ok (join ws).
Proof.
  destruct 1 as [|w ws [Hne Hw] Hws]; [exact I|]. cbn [join].
  destruct ws; [apply head_ok_all; assumption|].
  apply head_ok_app; [assumption | apply head_ok_all; assumption].
Qed.

Lemma join_rev_head_ok ws : Forall word ws -> head_ok (rev (join ws)).
Proof.
  induction 1 as [|w ws Hw Hws IH]; [exact I|]. cbn [join].
  destruct ws as [|w' ws'].
  - apply head_ok_all. apply Forall_rev. apply Hw.
  - rewrite rev_app_distr. cbn [rev]. rewrite <- !app_assoc.
    apply head_ok_app; [|exact IH].
    inversion Hws; subst. intros E. apply (join_nonempty w' ws'); [assumption|].
    apply (f_equal (@rev ascii)) in E. rewrite rev_involutive in E. exact E.
Qed.

(** After [split] and [join], [strip] has nothing to remove. *)
Lemma strip_join_split s : strip (join (split s)) = join (split s).
Proof.
  pose proof (split_words s) as Hw. unfold strip.
  rewrite (lstrip_head_ok (join (split s))) by (apply join_head_ok; assumption).
  rewrite lstrip_head_ok by (apply join_rev_head_ok; assumption).
  apply rev_involutive.
Qed.

Lemma single_spaced_firstn n b s :
  single_spaced b s = true -> single_spaced b (firstn n s) = true.
Proof.
  revert b s. induction n as [|n IH]; intros b [|c s]; cbn [firstn single_spaced]; auto.
  destruct (is_space c); [|apply IH].
  rewrite !andb_true_iff. intros [H1 H2]. split; [assumption | apply IH; assumption].
Qed.

(** The description of a candidate: more than 3 and at most 100
    characters, whitespace collapsed. *)
Lemma extract_line_description line txn :
  extract_line line = Some txn ->
  (3 < length (description txn) <= 100)%nat /\ collapsed (description txn) = true.
Proof.
  unfold extract_line. destruct (parse_date line) as [[|c d]|]; try discriminate.
  destruct (List.last _ _); [|discriminate].
  destruct (parse_amount _); [|discriminate].
  destruct (not_positive _); [discriminate|].
  rewrite strip_join_split.
  destruct (_ <? _)%nat eqn:Hlen; [|discriminate].
  match goal with
  | |- context [prefix 100 ?x] => remember (prefix 100 x) as p eqn:Hp
  end.
  intros [= <-]. apply Nat.ltb_lt in Hlen. cbn [description]. subst p.
  unfold prefix. split.
  - rewrite length_firstn. lia.
  - apply single_spaced_firstn. apply join_single_spaced. apply split_words.
Qed.

(** The amount of a candidate is above zero. *)
Lemma extract_line_amount line txn :
  extract_line line = Some txn -> positive_float (amount txn) = true.
Proof.
  unfold extract_line. destruct (parse_date line) as [[|c d]|]; try discriminate.
  destruct (List.last _ _) as [raw|]; [|discriminate].
  destruct (parse_amount raw) as [a|] eqn:Ha; [|discriminate].
  destruct (not_positive a) eqn:Hp; [discriminate|].
  destruct (_ <? _)%nat; [|discriminate]. intros [= <-]. cbn [amount].
  apply positive_of_check; [|assumption]. apply (parse_amount_not_negative raw). assumption.
Qed.

Lemma digit_value_digit_char x : digit_value (digit_char x) = x mod 10.
Proof.
  unfold digit_value, digit_char, code.
  assert (H : 0 <= x mod 10 < 10) by (apply Z.mod_pos_bound; lia).
  rewrite nat_ascii_embedding by lia. lia.
Qed.

(** A date printed by [strftime] has the form YYYY-MM-DD exactly when its
    year has four digits. *)
Lemma strftime_iso dt :
  valid_date dt = true -> is_iso_date (strftime dt) = (1000 <=? year dt).
Proof.
  destruct dt as [y m d]. unfold valid_date. cbn [year month day].
  intros Hv. pose proof Hv as Hv'.
  rewrite !andb_true_iff, !Z.leb_le in Hv'.
  destruct Hv' as (((((Hy1 & Hy2) & Hm1) & Hm2) & Hd1) & Hd2).
  unfold strftime, show_year, show2. cbn [year month day].
  destruct (Z.ltb_spec y 10); [destruct (Z.leb_spec 1000 y); [lia | reflexivity]|].
  destruct (Z.ltb_spec y 100); [destruct (Z.leb_spec 1000 y); [lia | reflexivity]|].
  destruct (Z.ltb_spec y 1000); [destruct (Z.leb_spec 1000 y); [lia | reflexivity]|].
  destruct (Z.leb_spec 1000 y); [|lia].
  cbn [app list_ascii_of_string is_iso_date forallb].
  rewrite !digit_char_is_digit. change (is_char "-" "-") with true. cbn [andb].
  unfold digits_value. cbn [fold_left]. rewrite !digit_value_digit_char.
  assert (Hdim : d <= 31).
  { unfold days_in_month in Hd2.
    repeat match goal with
      | H : context [if ?b then _ else _] |- _ => destruct b
      end; lia. }
  replace (10 * (10 * (10 * (10 * 0 + (y / 1000) mod 10) + (y / 100) mod 10)
                 + (y / 10) mod 10) + y mod 10) with y
    by (Z.div_mod_to_equations; lia).
  replace (10 * (10 * 0 + (m / 10) mod 10) + m mod 10) with m
    by (Z.div_mod_to_equations; lia).
  replace (10 * (10 * 0 + (d / 10) mod 10) + d mod 10) with d
    by (Z.div_mod_to_equations; lia).
  exact Hv.
Qed.

(** X13.  What holds of every record of the final output: the date is a calendar
    date printed by [strftime], of the form YYYY-MM-DD when the year has
    four digits; the description has more than 3 and at most 100
    characters, with whitespace collapsed; the amount is above zero. *)
Lemma extract_output_shape float_repr lines txn :
  In txn (extract float_repr lines) ->
  (exists dt, valid_date dt = true /\ date txn = strftime dt
              /\ is_iso_date (date txn) = (1000 <=? year dt))
  /\ (3 < length (description txn) <= 100)%nat
  /\ collapsed (description txn) = true
  /\ positive_float (amount txn) = true.
Proof.
  intros Hin.
  assert (Hsrc : In txn (extract_transactions_from_lines lines)).
  { unfold extract, dedupe in Hin. apply list_elem_of_In.
    eapply elem_of_sublist; [|apply dedupe_loop_sublist]. apply list_elem_of_In. exact Hin. }
  clear Hin.
  assert (Hline : exists line, extract_line line = Some txn).
  { induction lines as [|line lines IH]; [destruct Hsrc|].
    cbn [extract_transactions_from_lines] in Hsrc.
    destruct (extract_line line) as [t|] eqn:E; [|auto].
    destruct Hsrc as [<- | Hsrc]; eauto. }
  destruct Hline as [line Hline].
  pose proof (extract_line_description line txn Hline) as [Hlen Hcol].
  pose proof (extract_line_amount line txn Hline) as Hpos.
  apply extract_line_date in Hline. apply parse_date_strftime in Hline as (dt & Hv & Hd).
  split; [|split; [exact Hlen | split; [exact Hcol | exact Hpos]]].
  exists dt. split; [exact Hv|]. split; [exact Hd|]. rewrite Hd. apply strftime_iso. exact Hv.
Qed.

Lemma dedupe_singleton float_repr txn : dedupe float_repr [txn] = [txn].
Proof.
  unfold dedupe. cbn [dedupe_loop].
  destruct (decide _) as [Hin | _]; [|reflexivity].
  apply elem_of_empty in Hin. destruct Hin.
Qed.

(** C7 fails on the code.  The line "0999-01-05 COFFEE SHOP 12.50" is
    dated by the ISO pattern, the date 999-01-05 is a calendar date, and the
    record in the final output carries it as "999-01-05": three digits of
    year, not the YYYY-MM-DD form. *)
Theorem early_year_loses_padding float_repr :
  strptime (py "0999-01-05") (snd iso_pattern) = Some (Date 999 1 5)
  /\ parse_date early_year_line = Some (py "999-01-05")
  /\ extract float_repr [early_year_line]
     = [Txn (py "999-01-05") (py "09 COFFEE SHOP") (decimal_to_float false 1250 2)]
  /\ is_iso_date (py "999-01-05") = false
  /\ is_iso_date (py "0999-01-05") = true.
Proof.
  split; [vm_compute; reflexivity|]. split; [vm_compute; reflexivity|].
  split; [|split; vm_compute; reflexivity].
  unfold extract.
  replace (extract_transactions_from_lines [early_year_line])
    with [Txn (py "999-01-05") (py "09 COFFEE SHOP") (decimal_to_float false 1250 2)]
    by (vm_compute; reflexivity).
  apply dedupe_singleton.
Qed.

(** * Further properties *)

(** ** Lines are handled one by one *)

Lemma extract_lines_app l1 l2 :
  extract_transactions_from_lines (l1 ++ l2)
  = extract_transactions_from_lines l1 ++ extract_transactions_from_lines l2.
Proof.
  induction l1 as [|line l1 IH]; [reflexivity|].
  cbn [app extract_transactions_from_lines].
  destruct (extract_line line); rewrite IH; reflexivity.
Qed.

Lemma extract_lines_In lines txn :
  In txn (extract_transactions_from_lines lines)
  <-> exists line, In line lines /\ extract_line line = Some txn.
Proof.
  induction lines as [|line lines IH]; cbn [extract_transactions_from_lines].
  - split; [intros [] | intros (l & [] & _)].
  - destruct (extract_line line) as [t|] eqn:E.
    + cbn [In]. rewrite IH. split.
      * intros [<- | (l & Hl & Hx)].
        -- exists line. split; [left; reflexivity | assumption].
        -- exists l. split; [right|]; assumption.
      * intros (l & [<- | Hl] & Hx); [left; congruence | right; eauto].
    + rewrite IH. split.
      * intros (l & Hl & Hx). exists l. split; [right|]; assumption.
      * intros (l & [<- | Hl] & Hx); [congruence | eauto].
Qed.

(** X1.  [extract_transactions_from_lines] handles each line on its own
    and keeps the order of the lines: the candidates of two sequences of
    lines put end to end are the candidates of the first followed by the
    candidates of the second; there is at most one candidate for each line;
    a record is in the result exactly when some line of the input yields
    it. *)
Theorem lines_are_independent :
  (forall l1 l2,
      extract_transactions_from_lines (l1 ++ l2)
      = extract_transactions_from_lines l1 ++ extract_transactions_from_lines l2)
  /\ (forall lines,
        (length (extract_transactions_from_lines lines) <= length lines)%nat)
  /\ (forall lines txn,
        In txn (extract_transactions_from_lines lines)
        <-> exists line, In line lines /\ extract_line line = Some txn).
Proof.
  split; [exact extract_lines_app|]. split; [|exact extract_lines_In].
  induction lines as [|line lines IH]; cbn [extract_transactions_from_lines length];
    [lia|].
  destruct (extract_line line); cbn [length]; lia.
Qed.

(** ** The deduplication loop, for any printer of floats *)

#[local] Set Warnings "-clear-no-such-hyp".

Section DedupeKeys.

Variable float_repr : spec_float -> text.

Lemma dedupe_loop_keys (seen : gset text) (txns : list transaction) :
  NoDup (map (key float_repr) (dedupe_loop float_repr seen txns))
  /\ (forall k, k ∈ map (key float_repr) (dedupe_loop float_repr seen txns)
                <-> k ∈ map (key float_repr) txns /\ k ∉ seen).
Proof.
  revert seen. induction txns as [|txn txns IH]; intros seen; cbn [dedupe_loop map].
  - split; [constructor|]. intros k. rewrite elem_of_nil. tauto.
  - destruct (decide (key float_repr txn ∈ seen)) as [Hin | Hout].
    + destruct (IH seen) as [Hnd Hk]. split; [assumption|].
      intros k. rewrite Hk, elem_of_cons. split; [tauto|].
      intros [[-> | Hk'] Hs]; tauto.
    + destruct (IH ({[ key float_repr txn ]} ∪ seen)) as [Hnd Hk].
      cbn [map]. split.
      * constructor; [|assumption]. rewrite Hk, elem_of_union, elem_of_singleton. tauto.
      * intros k. rewrite !elem_of_cons, Hk, elem_of_union, elem_of_singleton.
        destruct (decide (k = key float_repr txn)) as [-> | Hne]; tauto.
Qed.

Lemma dedupe_loop_fixed (seen : gset text) (txns : list transaction) :
  NoDup (map (key float_repr) txns) ->
  (forall k, k ∈ map (key float_repr) txns -> k ∉ seen) ->
  dedupe_loop float_repr seen txns = txns.
Proof.
  revert seen. induction txns as [|txn txns IH]; intros seen Hnd Hs; [reflexivity|].
  cbn [dedupe_loop map] in *. apply NoDup_cons in Hnd as [Hfresh Hnd].
  destruct (decide (key float_repr txn ∈ seen)) as [Hin | Hout].
  - exfalso. apply (Hs (key float_repr txn)); [left | assumption].
  - f_equal. apply IH; [assumption|].
    intros k Hk. rewrite elem_of_union, elem_of_singleton. intros [-> | Hk'].
    + contradiction.
    + apply (Hs k); [right|]; assumption.
Qed.

Lemma dedupe_loop_app (seen : gset text) (xs ys : list transaction) :
  dedupe_loop float_repr seen (xs ++ ys)
  = dedupe_loop float_repr seen xs
    ++ dedupe_loop float_repr (list_to_set (map (key float_repr) xs) ∪ seen) ys.
Proof.
  revert seen. induction xs as [|x xs IH]; intros seen; cbn [app dedupe_loop map].
  - f_equal. rewrite list_to_set_nil. apply leibniz_equiv. set_solver.
  - assert (Hset : forall s : gset text,
               key float_repr x ∈ s ->
               list_to_set (key float_repr x :: map (key float_repr) xs) ∪ s
               = list_to_set (map (key float_repr) xs) ∪ s).
    { intros s Hs. apply leibniz_equiv. rewrite list_to_set_cons. set_solver. }
    destruct (decide (key float_repr x ∈ seen)) as [Hin | Hout].
    + rewrite IH, (Hset seen Hin). reflexivity.
    + cbn [app]. f_equal. rewrite IH. f_equal. f_equal.
      apply leibniz_equiv. rewrite list_to_set_cons. set_solver.
Qed.

Lemma dedupe_loop_all_seen (seen : gset text) (txns : list transaction) :
  (forall t, In t txns -> key float_repr t ∈ seen) ->
  dedupe_loop float_repr seen txns = [].
Proof.
  induction txns as [|txn txns IH]; intros Hs; [reflexivity|]. cbn [dedupe_loop].
  destruct (decide (key float_repr txn ∈ seen)) as [Hin | Hout].
  - apply IH. intros t Ht. apply Hs. right. assumption.
  - exfalso. apply Hout. apply Hs. left. reflexivity.
Qed.

(** X2.  Whatever the printer of floats, the output of the deduplication
    is a subsequence of its input, its keys are pairwise distinct, and a key
    occurs in the output exactly when it occurs in the input: no record is
    made up, none is reordered, and no key is lost. *)
Theorem dedupe_keeps_one_record_for_each_key (txns : list transaction) :
  sublist (dedupe float_repr txns) txns
  /\ NoDup (map (key float_repr) (dedupe float_repr txns))
  /\ (forall k, k ∈ map (key float_repr) (dedupe float_repr txns)
                <-> k ∈ map (key float_repr) txns)
  /\ (length (dedupe float_repr txns) <= length txns)%nat.
Proof.
  unfold dedupe. destruct (dedupe_loop_keys ∅ txns) as [Hnd Hk].
  pose proof (dedupe_loop_sublist float_repr ∅ txns) as Hsub.
  split; [exact Hsub|]. split; [exact Hnd|]. split.
  - intros k. rewrite Hk. split; [tauto|]. intros H. split; [exact H|]. apply not_elem_of_empty.
  - apply sublist_length. exact Hsub.
Qed.

(** X3.  The deduplication returns its input unchanged exactly when the
    keys of the input are pairwise distinct. *)
Theorem dedupe_unchanged_iff_keys_distinct (txns : list transaction) :
  dedupe float_repr txns = txns <-> NoDup (map (key float_repr) txns).
Proof.
  split.
  - intros H. rewrite <- H. apply dedupe_loop_keys.
  - intros Hnd. unfold dedupe. apply dedupe_loop_fixed; [exact Hnd|].
    intros k _. apply not_elem_of_empty.
Qed.

(** X4.  Lines that were already read add nothing: when every line of a
    second batch occurs in the first batch, the final output for the two
    batches put end to end is the final output for the first batch alone;
    in particular reading the same lines twice changes nothing. *)
Theorem lines_read_again_add_nothing :
  (forall lines again,
      (forall line, In line again -> In line lines) ->
      extract float_repr (lines ++ again) = extract float_repr lines)
  /\ (forall lines, extract float_repr (lines ++ lines) = extract float_repr lines).
Proof.
  assert (H : forall lines again,
      (forall line, In line again -> In line lines) ->
      extract float_repr (lines ++ again) = extract float_repr lines).
  { intros lines again Hsub. unfold extract, dedupe.
    rewrite extract_lines_app, dedupe_loop_app.
    rewrite (dedupe_loop_all_seen _ (extract_transactions_from_lines again));
      [apply app_nil_r|].
    intros t Ht. apply extract_lines_In in Ht as (line & Hl & Hx).
    apply elem_of_union. left. apply elem_of_list_to_set.
    apply list_elem_of_In, in_map. apply extract_lines_In. exists line. auto. }
  split; [exact H|]. intros lines. apply H. auto.
Qed.

End DedupeKeys.

Lemma lines_read_again_add_nothing_witness :
  (forall line, In line [rent_line] -> In line [rent_line; coffee_line])
  /\ extract binary_repr ([rent_line; coffee_line] ++ [rent_line])
     = extract binary_repr [rent_line; coffee_line].
Proof.
  assert (H : forall line, In line [rent_line] -> In line [rent_line; coffee_line]).
  { intros line [<- | []]. left. reflexivity. }
  split; [exact H|].
  exact (proj1 (lines_read_again_add_nothing binary_repr) _ _ H).
Defined.

(** ** More on [parse_amount] *)

Lemma numeral_char_spec c :
  numeral_char c = amount_char c && negb (is_char "," c).
Proof. destruct c as [[] [] [] [] [] [] [] []]; reflexivity. Qed.

Lemma filter_filter {A} (p q : A -> bool) (l : list A) :
  List.filter q (List.filter p l) = List.filter (fun x => p x && q x) l.
Proof.
  induction l as [|x l IH]; [reflexivity|]. cbn [List.filter].
  destruct (p x); cbn [List.filter andb]; [destruct (q x)|]; rewrite IH; reflexivity.
Qed.

Lemma filter_ext_bool {A} (p q : A -> bool) (l : list A) :
  (forall x, p x = q x) -> List.filter p l = List.filter q l.
Proof.
  intros H. induction l as [|x l IH]; [reflexivity|]. cbn [List.filter].
  rewrite H, IH. reflexivity.
Qed.

(** The result depends on the digits, periods and minus signs of the text
    only. *)
Lemma parse_amount_numeral t :
  parse_amount t = option_map SFabs (py_float (List.filter numeral_char t)).
Proof.
  rewrite parse_amount_unfold, remove_commas_filter, filter_filter.
  rewrite (filter_ext_bool (fun x => amount_char x && negb (is_char "," x)) numeral_char)
    by (intros x; symmetry; apply numeral_char_spec).
  destruct (List.filter amount_char t) as [|c u] eqn:E; [|reflexivity].
  assert (Hn : List.filter numeral_char t = []).
  { rewrite (filter_ext_bool _ _ t numeral_char_spec), <- filter_filter, E. reflexivity. }
  rewrite Hn. reflexivity.
Qed.

(** X8.  [parse_amount] looks at the digits, periods and minus signs of
    its argument and at nothing else: two texts that agree on those
    characters, in order, have the same result, so thousands separators,
    currency signs, letters and spaces may stand anywhere. *)
Theorem parse_amount_ignores_other_characters t u :
  List.filter numeral_char t = List.filter numeral_char u ->
  parse_amount t = parse_amount u.
Proof. intros H. rewrite !parse_amount_numeral, H. reflexivity. Qed.

Lemma parse_amount_ignores_other_characters_witness :
  List.filter numeral_char (py "$ 1,234.56") = List.filter numeral_char (py "12,34.56 USD")
  /\ parse_amount (py "$ 1,234.56") = parse_amount (py "12,34.56 USD").
Proof.
  assert (H : List.filter numeral_char (py "$ 1,234.56")
              = List.filter numeral_char (py "12,34.56 USD")) by reflexivity.
  split; [exact H|].
  exact (parse_amount_ignores_other_characters _ _ H).
Defined.

Lemma occurrences_app a t u : occurrences a (t ++ u) = (occurrences a t + occurrences a u)%nat.
Proof. unfold occurrences. rewrite List.filter_app, length_app. reflexivity. Qed.

Lemma occurrences_digits a ds :
  is_digit a = false -> Forall (fun c => is_digit c = true) ds -> occurrences a ds = 0%nat.
Proof.
  intros Ha. unfold occurrences. induction 1 as [|c ds Hc Hds IH]; [reflexivity|].
  cbn [List.filter]. destruct (is_char a c) eqn:E; [|exact IH].
  apply is_char_eq in E. subst. congruence.
Qed.

Lemma occurrences_numeral a t :
  numeral_char a = true -> occurrences a (List.filter numeral_char t) = occurrences a t.
Proof.
  intros Ha. unfold occurrences. rewrite filter_filter. f_equal.
  apply filter_ext_bool. intros x. destruct (is_char a x) eqn:E.
  - apply is_char_eq in E. subst. rewrite Ha. reflexivity.
  - apply andb_false_r.
Qed.

Lemma numeric_shape s neg n k :
  numeric s neg n k ->
  (exists c, In c s /\ is_digit c = true)
  /\ (occurrences "." s <= 1)%nat /\ (occurrences "-" s <= 1)%nat.
Proof.
  assert (Hsign : forall g, occurrences "." (sign_text g) = 0%nat
                            /\ (occurrences "-" (sign_text g) <= 1)%nat).
  { intros []; cbn; split; auto. }
  assert (Hdigit : forall ds rest, ds <> [] -> Forall (fun c => is_digit c = true) ds ->
                     exists c, In c (ds ++ rest) /\ is_digit c = true).
  { intros [|c ds] rest Hne Hds; [congruence|]. inversion Hds; subst.
    exists c. split; [left; reflexivity | assumption]. }
  intros [g ip Hne Hip | g ip fp Hne Hip Hfp]; destruct (Hsign g) as [Hp Hm].
  - split; [|split].
    + destruct (Hdigit ip [] Hne Hip) as (c & Hin & Hc). rewrite app_nil_r in Hin.
      exists c. split; [apply in_or_app; right|]; assumption.
    + rewrite occurrences_app, Hp, (occurrences_digits "." ip) by auto. lia.
    + rewrite occurrences_app, (occurrences_digits "-" ip) by auto. lia.
  - split; [|split].
    + destruct ip as [|c ip].
      * destruct (Hdigit fp [] Hne Hfp) as (c & Hin & Hc). rewrite app_nil_r in Hin.
        exists c. split; [|assumption]. apply in_or_app. right. right. assumption.
      * inversion Hip; subst. exists c. split; [|assumption].
        apply in_or_app. right. left. reflexivity.
    + rewrite !occurrences_app, Hp, (occurrences_digits "." ip),
        (occurrences_digits "." fp) by auto. cbn. lia.
    + rewrite !occurrences_app, (occurrences_digits "-" ip),
        (occurrences_digits "-" fp) by auto. cbn. lia.
Qed.

(** X7.  When [parse_amount] returns a value, its argument holds at least
    one digit, at most one period and at most one minus sign: a text with
    two periods, such as an amount with periods for thousands, has no
    value. *)
Theorem parse_amount_some_shape t a :
  parse_amount t = Some a ->
  (exists c, In c t /\ is_digit c = true)
  /\ (occurrences "." t <= 1)%nat /\ (occurrences "-" t <= 1)%nat.
Proof.
  rewrite parse_amount_numeral.
  destruct (py_float _) as [x|] eqn:Hx; [|discriminate]. intros _.
  apply py_float_numeric in Hx as (neg & n & k & Hn & _).
  apply numeric_shape in Hn as ((c & Hin & Hc) & Hp & Hm).
  rewrite occurrences_numeral in Hp, Hm by reflexivity.
  split; [|split; assumption].
  exists c. split; [|assumption]. apply filter_In in Hin. tauto.
Qed.

Lemma parse_amount_some_shape_witness :
  parse_amount (py "-1,234.50") = Some (decimal_to_float false 123450 2)
  /\ (exists c, In c (py "-1,234.50") /\ is_digit c = true)
  /\ (occurrences "." (py "-1,234.50") <= 1)%nat
  /\ (occurrences "-" (py "-1,234.50") <= 1)%nat.
Proof.
  assert (H : parse_amount (py "-1,234.50") = Some (decimal_to_float false 123450 2))
    by (vm_compute; reflexivity).
  split; [exact H|].
  exact (parse_amount_some_shape _ _ H).
Defined.

(** X6.  A value returned by [parse_amount] is a number and is not below
    zero: it is zero, a positive finite number or plus infinity, never
    negative and never NaN. *)
Theorem parse_amount_never_negative t a :
  parse_amount t = Some a ->
  not_negative a /\ SFleb zero a = true /\ SFcompare a a = Some Eq.
Proof.
  intros H. pose proof (parse_amount_not_negative t a H) as Hn.
  split; [exact Hn|].
  destruct a as [[]|[]| |[] m e]; cbn in Hn; try destruct Hn; cbn; auto.
  rewrite Z.compare_refl, Pos.compare_cont_refl. auto.
Qed.

Lemma parse_amount_never_negative_witness :
  parse_amount (py "-45.00") = Some (decimal_to_float false 45 0)
  /\ not_negative (decimal_to_float false 45 0)
  /\ SFleb zero (decimal_to_float false 45 0) = true
  /\ SFcompare (decimal_to_float false 45 0) (decimal_to_float false 45 0) = Some Eq.
Proof.
  assert (H : parse_amount (py "-45.00") = Some (decimal_to_float false 45 0))
    by (vm_compute; reflexivity).
  split; [exact H|].
  exact (parse_amount_never_negative _ _ H).
Defined.

(** ** The amount of a candidate *)

Lemma filter_numeral_run run :
  Forall (fun c => digit_or_comma c = true) run ->
  List.filter numeral_char run = List.filter is_digit run
  /\ Forall (fun c => is_digit c = true) (List.filter is_digit run).
Proof.
  induction 1 as [|c run Hc Hrun [IH1 IH2]]; [split; [reflexivity | constructor]|].
  cbn [List.filter]. unfold digit_or_comma in Hc.
  destruct (is_digit c) eqn:Hd.
  - unfold numeral_char. rewrite Hd. cbn [orb]. split; [f_equal; assumption|].
    constructor; assumption.
  - cbn [orb] in Hc. apply is_char_eq in Hc. subst c. split; assumption.
Qed.

(** On a match of the amount pattern [parse_amount] always has a value:
    the number written by the digits of the match, counted in hundredths. *)
Lemma parse_amount_of_match raw :
  matches amount_re raw ->
  exists run d1 d2,
    raw = run ++ py "." ++ [d1; d2]
    /\ Forall (fun c => digit_or_comma c = true) run
    /\ is_digit d1 = true /\ is_digit d2 = true
    /\ parse_amount raw
       = Some (decimal_to_float false
                 (digits_value (List.filter is_digit run ++ [d1; d2])) 2).
Proof.
  intros H. apply matches_amount_re in H as (run & d1 & d2 & -> & Hne & Hrun & Hd1 & Hd2).
  exists run, d1, d2. repeat split; auto.
  rewrite parse_amount_numeral, List.filter_app.
  destruct (filter_numeral_run run Hrun) as [-> Hds].
  cbn [list_ascii_of_string app List.filter]. change (numeral_char ".") with true.
  unfold numeral_char. rewrite Hd1, Hd2. cbn [orb].
  assert (Hx : py_float (List.filter is_digit run ++ py "." ++ [d1; d2])
               = Some (decimal_to_float false
                         (digits_value (List.filter is_digit run ++ [d1; d2])) 2)).
  { apply py_float_numeric. exists false. eexists _, _. split; [|reflexivity].
    apply (numeric_fraction false (List.filter is_digit run) [d1; d2]); auto.
    destruct (List.filter is_digit run); discriminate. }
  cbn [list_ascii_of_string app] in Hx. rewrite Hx. cbn [option_map].
  rewrite SFabs_decimal. reflexivity.
Qed.

Lemma last_some {A} (l : list A) x :
  List.last (map Some l) None = Some x -> exists e, l = e ++ [x].
Proof.
  induction l as [|y l IH]; [discriminate|]. cbn [map List.last].
  destruct l as [|z l'].
  - intros [= <-]. exists []. reflexivity.
  - intros H. destruct (IH H) as [e He]. exists (y :: e). rewrite He. reflexivity.
Qed.

(** X5.  The amount of a candidate is read from the last match of the
    amount pattern in the line, and from no other: that match is a run of
    digits and commas, a period and two digits, and the amount is the
    number its digits write, counted in hundredths (no match of the
    pattern is ever refused by [parse_amount]). *)
Theorem candidate_amount_is_last_match line txn :
  extract_line line = Some txn ->
  exists earlier run d1 d2,
    re_findall amount_re line = earlier ++ [run ++ py "." ++ [d1; d2]]
    /\ Forall (fun c => digit_or_comma c = true) run
    /\ is_digit d1 = true /\ is_digit d2 = true
    /\ amount txn
       = decimal_to_float false
           (digits_value (List.filter is_digit run ++ [d1; d2])) 2.
Proof.
  unfold extract_line. destruct (parse_date line) as [[|c d]|]; try discriminate.
  destruct (List.last _ _) as [raw|] eqn:Hlast; [|discriminate].
  apply last_some in Hlast as [earlier He].
  assert (Hm : matches amount_re raw).
  { assert (Hin : In raw (findall_from amount_re 0 line)).
    { fold (re_findall amount_re line). rewrite He. apply in_or_app. right. left. reflexivity. }
    apply findall_from_factor in Hin as (_ & _ & _ & Hm). exact Hm. }
  apply parse_amount_of_match in Hm as (run & d1 & d2 & -> & Hrun & Hd1 & Hd2 & Hp).
  rewrite Hp. destruct (not_positive _); [discriminate|].
  destruct (_ <? _)%nat; [|discriminate]. intros [= <-]. cbn [amount].
  exists earlier, run, d1, d2. rewrite He. auto.
Qed.

Lemma candidate_amount_is_last_match_witness :
  let line := py "15/03/2024 BALANCE 2,000.00 RENT 1,234.56" in
  let txn := Txn (py "2024-03-15") (py "BALANCE RENT") (decimal_to_float false 123456 2) in
  extract_line line = Some txn
  /\ exists earlier run d1 d2,
       re_findall amount_re line = earlier ++ [run ++ py "." ++ [d1; d2]]
       /\ Forall (fun c => digit_or_comma c = true) run
       /\ is_digit d1 = true /\ is_digit d2 = true
       /\ amount txn
          = decimal_to_float false
              (digits_value (List.filter is_digit run ++ [d1; d2])) 2.
Proof.
  intros line txn.
  assert (H : extract_line line = Some txn) by (vm_compute; reflexivity).
  split; [exact H|].
  exact (candidate_amount_is_last_match line txn H).
Defined.

(** ** Dates written in the formats of the patterns *)

Lemma run_length_exact p n run rest :
  length run = n -> Forall (fun c => p c = true) run ->
  run_length p (Some n) (run ++ rest) = n.
Proof.
  intros Hn Hp. revert n Hn. induction Hp as [|c run Hc Hp IH]; intros n Hn.
  - subst n. cbn. destruct rest as [|c rest]; [reflexivity|]. cbn. destruct (p c); reflexivity.
  - destruct n as [|n]; [discriminate|]. injection Hn as Hn.
    cbn [app run_length]. rewrite Hc. f_equal. apply IH. exact Hn.
Qed.

Lemma match_exact_run n p r run rest total :
  length run = n -> Forall (fun c => p c = true) run ->
  match_items r rest = Some total ->
  match_items (exactly n p :: r) (run ++ rest) = Some (n + total)%nat.
Proof.
  intros Hn Hp Hr. cbn [match_items cls lo hi exactly].
  rewrite (run_length_exact p n run rest Hn Hp), Nat.ltb_irrefl.
  assert (Hs : skipn n (run ++ rest) = rest).
  { rewrite <- Hn. rewrite skipn_app, skipn_all, Nat.sub_diag. reflexivity. }
  destruct n; cbn [try_counts]; rewrite Hs, Hr; reflexivity.
Qed.

Lemma search_whole r t :
  match_items r t = Some (length t) -> re_search r t = Some t.
Proof.
  intros H. unfold re_search. destruct t as [|c t]; cbn [search_from]; rewrite H.
  - reflexivity.
  - cbn [skipn]. rewrite firstn_all. reflexivity.
Qed.

Lemma show2_digits n : Forall (fun c => is_digit c = true) (show2 n).
Proof. repeat constructor; apply digit_char_is_digit. Qed.

Lemma show4_digits n : Forall (fun c => is_digit c = true) (show4 n).
Proof. repeat constructor; apply digit_char_is_digit. Qed.

Lemma is_char_self a : Forall (fun c => is_char a c = true) [a].
Proof. constructor; [apply is_char_eq; reflexivity | constructor]. Qed.

Lemma take_Y_show4 y rest : 0 <= y <= 9999 -> take_Y (show4 y ++ rest) = Some (y, rest).
Proof.
  intros Hy. unfold show4. cbn [app take_Y]. rewrite !digit_char_is_digit. cbn [andb].
  unfold digits_value. cbn [fold_left]. rewrite !digit_value_digit_char.
  do 2 f_equal. Z.div_mod_to_equations. lia.
Qed.

Lemma take_m_show2 m rest : 1 <= m <= 12 -> take_m (show2 m ++ rest) = Some (m, rest).
Proof.
  intros Hm.
  assert (C : m = 1 \/ m = 2 \/ m = 3 \/ m = 4 \/ m = 5 \/ m = 6 \/ m = 7 \/ m = 8
              \/ m = 9 \/ m = 10 \/ m = 11 \/ m = 12) by lia.
  repeat destruct C as [C | C]; subst m; reflexivity.
Qed.

Lemma take_d_show2 d rest : 1 <= d <= 31 -> take_d (show2 d ++ rest) = Some (d, rest).
Proof.
  intros Hd.
  assert (C : exists k, (k < 31)%nat /\ d = Z.of_nat (S k)).
  { exists (Z.to_nat (d - 1)). lia. }
  destruct C as (k & Hk & ->).
  do 31 (destruct k as [|k]; [reflexivity|]). lia.
Qed.

Lemma take_y_show2 y rest :
  1969 <= y <= 2068 -> take_y (show2 y ++ rest) = Some (y, rest).
Proof.
  intros Hy. unfold show2. cbn [app take_y]. rewrite !digit_char_is_digit. cbn [andb].
  unfold digits_value. cbn [fold_left]. rewrite !digit_value_digit_char.
  do 2 f_equal.
  destruct (Z.leb_spec (10 * (10 * 0 + (y / 10) mod 10) + y mod 10) 68);
    Z.div_mod_to_equations; lia.
Qed.

Lemma valid_date_bounds y m d :
  valid_date (Date y m d) = true ->
  1 <= y <= 9999 /\ 1 <= m <= 12 /\ 1 <= d <= 31.
Proof.
  unfold valid_date. cbn [year month day]. rewrite !andb_true_iff, !Z.leb_le.
  intros (((((Hy1 & Hy2) & Hm1) & Hm2) & Hd1) & Hd2).
  assert (Hdim : days_in_month y m <= 31).
  { unfold days_in_month.
    repeat match goal with |- context [if ?b then _ else _] => destruct b end; lia. }
  lia.
Qed.

Lemma matches_numeric_date a s1 b s2 c m :
  matches [exactly a digit; lit s1; exactly b digit; lit s2; exactly c digit] m ->
  exists r1 r2 r3,
    m = r1 ++ [s1] ++ r2 ++ [s2] ++ r3
    /\ length r1 = a /\ length r2 = b /\ length r3 = c
    /\ Forall (fun x => is_digit x = true) r1
    /\ Forall (fun x => is_digit x = true) r2
    /\ Forall (fun x => is_digit x = true) r3.
Proof.
  unfold lit. intros H.
  apply matches_exactly in H as (r1 & rest1 & -> & L1 & C1 & H).
  apply matches_exactly in H as (q1 & rest2 & -> & Lq1 & Cq1 & H).
  apply matches_exactly in H as (r2 & rest3 & -> & L2 & C2 & H).
  apply matches_exactly in H as (q2 & rest4 & -> & Lq2 & Cq2 & H).
  apply matches_exactly in H as (r3 & rest5 & -> & L3 & C3 & H).
  inversion H; subst.
  destruct q1 as [|x [|? ?]]; try discriminate Lq1.
  destruct q2 as [|z [|? ?]]; try discriminate Lq2.
  apply Forall_cons_1 in Cq1 as [Hx _]. apply Forall_cons_1 in Cq2 as [Hz _].
  apply is_char_eq in Hx, Hz. subst x z.
  exists r1, r2, r3. rewrite app_nil_r. unfold digit in *. auto 10.
Qed.

(** The texts of the day-first and ISO forms are made of digits and of
    their separator. *)
Lemma numeric_date_text_chars sep (r1 r2 r3 : text) :
  Forall (fun x => is_digit x = true) r1 ->
  Forall (fun x => is_digit x = true) r2 ->
  Forall (fun x => is_digit x = true) r3 ->
  Forall (fun x => is_digit x = true \/ x = sep) (r1 ++ [sep] ++ r2 ++ [sep] ++ r3).
Proof.
  intros H1 H2 H3.
  assert (Hd : forall l, Forall (fun x => is_digit x = true) l ->
                 Forall (fun x => is_digit x = true \/ x = sep) l).
  { intros l Hl. eapply List.Forall_impl; [|exact Hl]. auto. }
  rewrite !Forall_app. repeat split; auto; constructor; auto; constructor.
Qed.

Lemma no_match_without_separator p fmt s1 a b s2 c sep t :
  p = [exactly a digit; lit s1; exactly b digit; lit s2; exactly c digit] ->
  Forall (fun x => is_digit x = true \/ x = sep) t ->
  is_digit s1 = false -> s1 <> sep ->
  attempt (p, fmt) t = None.
Proof.
  intros -> Ht Hs1 Hne. unfold attempt. cbn [fst snd].
  destruct (re_search _ t) as [m|] eqn:Hs; [|reflexivity]. exfalso.
  apply re_search_some in Hs as (pre & post & -> & Hm & _).
  apply matches_numeric_date in Hm as (r1 & r2 & r3 & -> & _).
  rewrite List.Forall_forall in Ht. specialize (Ht s1).
  destruct Ht as [Hd | He]; [|congruence|congruence].
  apply in_or_app. right. apply in_or_app. left.
  apply in_or_app. right. left. reflexivity.
Qed.

Lemma attempt_whole_text p fmt t dt :
  match_items p t = Some (length t) ->
  Forall (fun c => is_char "," c = false) t ->
  strptime t fmt = Some dt ->
  attempt (p, fmt) t = Some dt.
Proof.
  intros Hm Hc Hp. unfold attempt. cbn [fst snd].
  rewrite (search_whole p t Hm), remove_commas_no_comma by assumption. exact Hp.
Qed.

Lemma no_comma_in_date_text sep (t : text) :
  sep <> ","%char ->
  Forall (fun x => is_digit x = true \/ x = sep) t ->
  Forall (fun c => is_char "," c = false) t.
Proof.
  intros Hsep Ht. eapply List.Forall_impl; [|exact Ht].
  intros c [Hd | ->]; [apply digit_no_comma; assumption|].
  destruct (is_char "," sep) eqn:E; [|reflexivity]. apply is_char_eq in E. congruence.
Qed.

Lemma recognized_parse_date i p t dt :
  nth_error patterns i = Some p -> attempt p t = Some dt ->
  (forall j q, (j < i)%nat -> nth_error patterns j = Some q -> attempt q t = None) ->
  parse_date t = Some (strftime dt).
Proof.
  intros Hi Ha Hb. apply parse_date_some. exists i, dt. split; [|reflexivity].
  exists p. auto.
Qed.

Lemma match_numeric_date a s1 b s2 c (r1 r2 r3 : text) :
  length r1 = a -> length r2 = b -> length r3 = c ->
  Forall (fun x => is_digit x = true) r1 ->
  Forall (fun x => is_digit x = true) r2 ->
  Forall (fun x => is_digit x = true) r3 ->
  match_items [exactly a digit; lit s1; exactly b digit; lit s2; exactly c digit]
              (r1 ++ [s1] ++ r2 ++ [s2] ++ r3)
  = Some (length (r1 ++ [s1] ++ r2 ++ [s2] ++ r3)).
Proof.
  intros L1 L2 L3 H1 H2 H3. unfold lit.
  rewrite (match_exact_run a digit _ r1 _ (1 + (b + (1 + (c + 0))))%nat); auto.
  - rewrite !length_app. cbn [length]. f_equal. lia.
  - apply (match_exact_run 1 (is_char s1) _ [s1]); [reflexivity | apply is_char_self|].
    apply (match_exact_run b digit _ r2); auto.
    apply (match_exact_run 1 (is_char s2) _ [s2]); [reflexivity | apply is_char_self|].
    rewrite <- (app_nil_r r3). apply (match_exact_run c digit _ r3); auto.
Qed.

Lemma strptime_iso_text y m d :
  valid_date (Date y m d) = true ->
  strptime (show4 y ++ [ "-"%char ] ++ show2 m ++ [ "-"%char ] ++ show2 d)
           (snd iso_pattern) = Some (Date y m d).
Proof.
  intros Hv. destruct (valid_date_bounds y m d Hv) as (Hy & Hm & Hd).
  unfold strptime. cbn [snd iso_pattern take_format take_directive].
  rewrite take_Y_show4 by lia. cbn [app take_directive year month day].
  change (is_char "-" "-") with true. cbv iota.
  rewrite take_m_show2 by lia. cbn [year month day].
  change (is_char "-" "-") with true. cbv iota.
  rewrite <- (app_nil_r (show2 d)), take_d_show2 by lia. cbn [year month day].
  rewrite Hv. reflexivity.
Qed.

Lemma strptime_dmy_text sep y m d fmt :
  fmt = [D_d; D_lit sep; D_m; D_lit sep; D_Y] ->
  valid_date (Date y m d) = true ->
  strptime (show2 d ++ [sep] ++ show2 m ++ [sep] ++ show4 y) fmt = Some (Date y m d).
Proof.
  intros -> Hv. destruct (valid_date_bounds y m d Hv) as (Hy & Hm & Hd).
  assert (Hsep : is_char sep sep = true) by (apply is_char_eq; reflexivity).
  unfold strptime. cbn [take_format take_directive].
  rewrite take_d_show2 by lia. cbn [app take_directive year month day].
  rewrite Hsep. rewrite take_m_show2 by lia. cbn [year month day]. rewrite Hsep.
  rewrite <- (app_nil_r (show4 y)), take_Y_show4 by lia. cbn [year month day].
  rewrite Hv. reflexivity.
Qed.

Lemma strptime_dmy_short_text y m d :
  valid_date (Date y m d) = true -> 1969 <= y <= 2068 ->
  strptime (show2 d ++ [ "/"%char ] ++ show2 m ++ [ "/"%char ] ++ show2 y)
           (snd dmy_short_pattern) = Some (Date y m d).
Proof.
  intros Hv Hy. destruct (valid_date_bounds y m d Hv) as (_ & Hm & Hd).
  unfold strptime. cbn [snd dmy_short_pattern take_format take_directive].
  rewrite take_d_show2 by lia. cbn [app take_directive year month day].
  change (is_char "/" "/") with true. cbv iota.
  rewrite take_m_show2 by lia. cbn [year month day].
  change (is_char "/" "/") with true. cbv iota.
  rewrite <- (app_nil_r (show2 y)), take_y_show2 by lia. cbn [year month day].
  rewrite Hv. reflexivity.
Qed.

(** X9.  A calendar date written YYYY-MM-DD, with no other text, is read
    back as itself: [parse_date] returns the normal form of that very date;
    for a year of four digits the normal form is the text, so the output of
    [parse_date] is a fixed point of [parse_date]. *)
Theorem iso_text_read_back dt :
  valid_date dt = true ->
  parse_date (iso_text dt) = Some (strftime dt)
  /\ (1000 <= year dt -> strftime dt = iso_text dt
                         /\ parse_date (strftime dt) = Some (strftime dt)).
Proof.
  destruct dt as [y m d]. intros Hv.
  assert (Hp : parse_date (iso_text (Date y m d)) = Some (strftime (Date y m d))).
  { apply (recognized_parse_date 0 iso_pattern); [reflexivity| |intros j q Hj; lia].
    unfold iso_pattern, iso_text. cbn [year month day list_ascii_of_string].
    apply attempt_whole_text.
    - apply match_numeric_date; auto using show2_digits, show4_digits.
    - apply (no_comma_in_date_text "-"); [discriminate|].
      apply numeric_date_text_chars; auto using show2_digits, show4_digits.
    - apply strptime_iso_text. exact Hv. }
  split; [exact Hp|]. intros Hy. cbn [year] in Hy.
  assert (He : strftime (Date y m d) = iso_text (Date y m d)).
  { unfold strftime, iso_text, show_year, show4. cbn [year month day].
    destruct (Z.ltb_spec y 10); [lia|]. destruct (Z.ltb_spec y 100); [lia|].
    destruct (Z.ltb_spec y 1000); [lia|]. reflexivity. }
  split; [exact He|]. rewrite He at 1. exact Hp.
Qed.

Lemma iso_text_read_back_witness :
  valid_date (Date 2024 2 29) = true
  /\ parse_date (iso_text (Date 2024 2 29)) = Some (strftime (Date 2024 2 29))
  /\ (1000 <= year (Date 2024 2 29) ->
      strftime (Date 2024 2 29) = iso_text (Date 2024 2 29)
      /\ parse_date (strftime (Date 2024 2 29)) = Some (strftime (Date 2024 2 29))).
Proof.
  assert (H : valid_date (Date 2024 2 29) = true) by reflexivity.
  split; [exact H|]. exact (iso_text_read_back (Date 2024 2 29) H).
Defined.

Lemma iso_pattern_not_in_dash_text y m d :
  attempt iso_pattern (dmy_text "-" (Date y m d)) = None.
Proof.
  unfold attempt, iso_pattern. cbn [fst snd].
  destruct (re_search _ _) as [x|] eqn:Hs; [|reflexivity]. exfalso.
  apply re_search_some in Hs as (pre & post & Ht & Hm & _).
  apply matches_numeric_date in Hm as (r1 & r2 & r3 & -> & L1 & L2 & L3 & C1 & _).
  assert (Hlen : (length pre + 10 + length post = 10)%nat).
  { apply (f_equal (@length ascii)) in Ht. rewrite !length_app in Ht.
    cbn [length] in Ht. cbn in Ht. lia. }
  destruct pre as [|? ?]; [|cbn [length] in Hlen; lia].
  destruct r1 as [|a [|b [|c [|e [|? ?]]]]]; try discriminate L1.
  cbn in Ht. injection Ht as _ _ Hc _.
  apply Forall_cons_1 in C1 as [_ C1]. apply Forall_cons_1 in C1 as [_ C1].
  apply Forall_cons_1 in C1 as [C1 _]. subst c. discriminate C1.
Qed.

Lemma slash_pattern_not_in_short_text y m d :
  attempt dmy_slash_pattern (dmy_short_text (Date y m d)) = None.
Proof.
  unfold attempt, dmy_slash_pattern. cbn [fst snd].
  destruct (re_search _ _) as [x|] eqn:Hs; [|reflexivity]. exfalso.
  apply re_search_some in Hs as (pre & post & Ht & Hm & _).
  apply matches_numeric_date in Hm as (r1 & r2 & r3 & -> & L1 & L2 & L3 & _).
  apply (f_equal (@length ascii)) in Ht. rewrite !length_app in Ht.
  cbn [length] in Ht. cbn in Ht. lia.
Qed.

(** X10.  A calendar date written day first, with no other text, is
    normalised to that date: DD/MM/YYYY and DD-MM-YYYY for every date
    [datetime] accepts, DD/MM/YY for the dates of the years 1969 to 2068.
    The first field is always the day. *)
Theorem day_first_text_normalised dt :
  valid_date dt = true ->
  parse_date (dmy_text "/" dt) = Some (strftime dt)
  /\ parse_date (dmy_text "-" dt) = Some (strftime dt)
  /\ (1969 <= year dt <= 2068 -> parse_date (dmy_short_text dt) = Some (strftime dt)).
Proof.
  destruct dt as [y m d]. intros Hv.
  assert (Hchars : forall sep r3, Forall (fun x => is_digit x = true) r3 ->
            Forall (fun x => is_digit x = true \/ x = sep)
                   (show2 d ++ [sep] ++ show2 m ++ [sep] ++ r3)).
  { intros sep r3 H3. apply numeric_date_text_chars; auto using show2_digits. }
  split; [|split].
  - apply (recognized_parse_date 1 dmy_slash_pattern); [reflexivity| |].
    + unfold dmy_slash_pattern, dmy_text. cbn [year month day].
      apply attempt_whole_text.
      * apply match_numeric_date; auto using show2_digits, show4_digits.
      * apply (no_comma_in_date_text "/"); [discriminate|].
        apply Hchars, show4_digits.
      * apply strptime_dmy_text; [reflexivity | exact Hv].
    + intros [|j] q Hj Hq; [|lia]. injection Hq as <-.
      apply (no_match_without_separator _ _ "-" 4 2 "-" 2 "/"%char);
        [reflexivity | apply Hchars, show4_digits | reflexivity | discriminate].
  - apply (recognized_parse_date 2 dmy_dash_pattern); [reflexivity| |].
    + unfold dmy_dash_pattern, dmy_text. cbn [year month day].
      apply attempt_whole_text.
      * apply match_numeric_date; auto using show2_digits, show4_digits.
      * apply (no_comma_in_date_text "-"); [discriminate|].
        apply Hchars, show4_digits.
      * apply strptime_dmy_text; [reflexivity | exact Hv].
    + intros [|[|j]] q Hj Hq; [| |lia]; injection Hq as <-.
      * apply iso_pattern_not_in_dash_text.
      * apply (no_match_without_separator _ _ "/" 2 2 "/" 4 "-"%char);
          [reflexivity | apply Hchars, show4_digits | reflexivity | discriminate].
  - intros Hy. cbn [year] in Hy.
    apply (recognized_parse_date 3 dmy_short_pattern); [reflexivity| |].
    + unfold dmy_short_pattern, dmy_short_text. cbn [year month day list_ascii_of_string].
      apply attempt_whole_text.
      * apply match_numeric_date; auto using show2_digits.
      * apply (no_comma_in_date_text "/"); [discriminate|].
        apply Hchars, show2_digits.
      * apply strptime_dmy_short_text; assumption.
    + intros [|[|[|j]]] q Hj Hq; [| | |lia]; injection Hq as <-.
      * apply (no_match_without_separator _ _ "-" 4 2 "-" 2 "/"%char);
          [reflexivity | apply Hchars, show2_digits | reflexivity | discriminate].
      * apply slash_pattern_not_in_short_text.
      * apply (no_match_without_separator _ _ "-" 2 2 "-" 4 "/"%char);
          [reflexivity | apply Hchars, show2_digits | reflexivity | discriminate].
Qed.

Lemma day_first_text_normalised_witness :
  valid_date (Date 2024 2 1) = true
  /\ parse_date (dmy_text "/" (Date 2024 2 1)) = Some (strftime (Date 2024 2 1))
  /\ parse_date (dmy_text "-" (Date 2024 2 1)) = Some (strftime (Date 2024 2 1))
  /\ (1969 <= year (Date 2024 2 1) <= 2068 ->
      parse_date (dmy_short_text (Date 2024 2 1)) = Some (strftime (Date 2024 2 1))).
Proof.
  assert (H : valid_date (Date 2024 2 1) = true) by reflexivity.
  split; [exact H|]. exact (day_first_text_normalised (Date 2024 2 1) H).
Defined.

Lemma extract_output_shape_witness :
  let txn := Txn (py "2024-01-05") (py "Jan 5 2024 COFFEE SHOP")
                 (decimal_to_float false 1250 2) in
  In txn (extract binary_repr [grocery_line; coffee_line])
  /\ (exists dt, valid_date dt = true /\ date txn = strftime dt
                 /\ is_iso_date (date txn) = (1000 <=? year dt))
  /\ (3 < length (description txn) <= 100)%nat
  /\ collapsed (description txn) = true
  /\ positive_float (amount txn) = true.
Proof.
  intros txn.
  assert (H : In txn (extract binary_repr [grocery_line; coffee_line]))
    by (vm_compute; left; reflexivity).
  split; [exact H|].
  exact (extract_output_shape binary_repr [grocery_line; coffee_line] txn H).
Defined.

(** ** Dates written with the name of the month *)

Lemma run_length_unbounded p run rest :
  Forall (fun c => p c = true) run -> stops p rest ->
  run_length p None (run ++ rest) = length run.
Proof.
  intros Hp Hs. induction Hp as [|c run Hc Hp IH]; cbn [app run_length length].
  - destruct rest as [|c rest]; [reflexivity|]. cbn in *. rewrite Hs. reflexivity.
  - rewrite Hc, IH. reflexivity.
Qed.

Lemma run_length_bounded p h run rest :
  Forall (fun c => p c = true) run -> (length run <= h)%nat ->
  length run = h \/ stops p rest ->
  run_length p (Some h) (run ++ rest) = length run.
Proof.
  intros Hp. revert h. induction Hp as [|c run Hc Hp IH]; intros h Hle Hs;
    cbn [app run_length length] in *.
  - destruct rest as [|c rest]; [reflexivity|]. cbn [run_length].
    destruct (p c) eqn:E; [|reflexivity].
    destruct Hs as [<- | Hs]; [reflexivity|]. cbn in Hs. congruence.
  - rewrite Hc. destruct h as [|h]; [lia|]. f_equal. apply IH; [lia|].
    destruct Hs as [Hs | Hs]; [left; lia | right; exact Hs].
Qed.

Lemma try_counts_first k m cont r :
  cont k = Some r -> try_counts k m cont = Some (k + r)%nat.
Proof. intros H. destruct k; cbn [try_counts]; rewrite H; reflexivity. Qed.

Lemma match_greedy it r run rest total :
  run_length (cls it) (hi it) (run ++ rest) = length run ->
  (lo it <= length run)%nat ->
  match_items r rest = Some total ->
  match_items (it :: r) (run ++ rest) = Some (length run + total)%nat.
Proof.
  intros Hrun Hlo Hr. cbn [match_items]. rewrite Hrun.
  destruct (Nat.ltb_spec (length run) (lo it)) as [Hlt | _]; [lia|].
  assert (Hs : skipn (length run) (run ++ rest) = rest).
  { rewrite skipn_app, skipn_all, Nat.sub_diag. reflexivity. }
  apply try_counts_first. rewrite Hs. exact Hr.
Qed.

Lemma digit_not_space c : is_digit c = true -> is_space c = false.
Proof.
  unfold is_digit, is_space, in_range. rewrite andb_true_iff, !Z.leb_le. intros H.
  repeat match goal with
    | |- context [?a <=? ?b] => destruct (Z.leb_spec a b)
    | |- context [?a =? ?b] => destruct (Z.eqb_spec a b)
    end; try reflexivity; lia.
Qed.

Lemma digit_is_word c : is_digit c = true -> is_word c = true.
Proof. unfold is_digit, is_word. intros ->. reflexivity. Qed.

Lemma month_cases m :
  1 <= m <= 12 ->
  m = 1 \/ m = 2 \/ m = 3 \/ m = 4 \/ m = 5 \/ m = 6 \/ m = 7 \/ m = 8
  \/ m = 9 \/ m = 10 \/ m = 11 \/ m = 12.
Proof. lia. Qed.

Lemma month_name_word m :
  1 <= m <= 12 ->
  length (month_name m) = 3%nat
  /\ Forall (fun c => is_word c = true) (month_name m)
  /\ Forall (fun c => is_char "," c = false) (month_name m)
  /\ forall rest, take_b (month_name m ++ rest) = Some (m, rest).
Proof.
  intros Hm. apply month_cases in Hm.
  repeat destruct Hm as [Hm | Hm]; subst m;
    (split; [reflexivity|]; split; [repeat constructor|];
     split; [repeat constructor | reflexivity]).
Qed.

Lemma day_text_digits pad d :
  Forall (fun c => is_digit c = true) (day_text pad d)
  /\ (1 <= length (day_text pad d) <= 2)%nat.
Proof.
  unfold day_text. destruct (pad || (10 <=? d)).
  - split; [apply show2_digits | cbn; lia].
  - split; [repeat constructor; apply digit_char_is_digit | cbn; lia].
Qed.

Lemma take_d_day_text pad d rest :
  1 <= d <= 31 ->
  take_d (day_text pad d ++ " "%char :: rest) = Some (d, " "%char :: rest).
Proof.
  intros Hd.
  assert (C : exists k, (k < 31)%nat /\ d = Z.of_nat (S k)).
  { exists (Z.to_nat (d - 1)). lia. }
  destruct C as (k & Hk & ->).
  destruct pad; do 31 (destruct k as [|k]; [reflexivity|]); lia.
Qed.

Lemma no_match_without_char p fmt s1 a b s2 c t :
  p = [exactly a digit; lit s1; exactly b digit; lit s2; exactly c digit] ->
  ~ In s1 t -> attempt (p, fmt) t = None.
Proof.
  intros -> Ht. unfold attempt. cbn [fst snd].
  destruct (re_search _ t) as [m|] eqn:Hs; [|reflexivity]. exfalso.
  apply re_search_some in Hs as (pre & post & -> & Hm & _).
  apply matches_numeric_date in Hm as (r1 & r2 & r3 & -> & _).
  apply Ht. apply in_or_app. right. apply in_or_app. left.
  apply in_or_app. right. left. reflexivity.
Qed.

Lemma filter_keep_all {A} (p : A -> bool) (l : list A) :
  Forall (fun x => p x = true) l -> List.filter p l = l.
Proof.
  induction 1 as [|x l Hx Hl IH]; [reflexivity|]. cbn [List.filter].
  rewrite Hx, IH. reflexivity.
Qed.

Section MonthNameText.

Variables (pad comma : bool) (y m d : Z).
Hypothesis Hvalid : valid_date (Date y m d) = true.

Let day_run := day_text pad d.
Let comma_run : text := if comma then py "," else [].

Lemma month_name_text_unfold :
  month_name_text pad comma (Date y m d)
  = month_name m ++ [ " "%char ] ++ day_run ++ comma_run ++ [ " "%char ] ++ show4 y.
Proof. reflexivity. Qed.

Lemma month_name_text_match :
  match_items (fst month_name_pattern) (month_name_text pad comma (Date y m d))
  = Some (length (month_name_text pad comma (Date y m d))).
Proof using Hvalid.
  destruct (valid_date_bounds y m d Hvalid) as (Hy & Hm & Hd).
  destruct (month_name_word m Hm) as (Hlen & Hword & _ & _).
  destruct (day_text_digits pad d) as [Hday Hdlen]. fold day_run in Hday, Hdlen.
  assert (Hday_head : forall rest, stops is_space (day_run ++ rest)).
  { intros rest. destruct day_run as [|c u]; [cbn in Hdlen; lia|].
    inversion Hday; subst. cbn. apply digit_not_space. assumption. }
  rewrite month_name_text_unfold. unfold month_name_pattern. cbn [fst].
  rewrite (match_greedy (exactly 3 is_word) _ (month_name m) _
             (1 + (length day_run + (length comma_run + (1 + (4 + 0)))))%nat).
  - rewrite !length_app. cbn [length]. f_equal; lia.
  - cbn [cls hi exactly]. apply run_length_bounded; [assumption | lia | left; assumption].
  - cbn [lo exactly]. lia.
  - apply (match_greedy (plus is_space) _ [ " "%char ]).
    + cbn [cls hi plus]. apply run_length_unbounded; [repeat constructor | apply Hday_head].
    + cbn. lia.
    + apply (match_greedy (between 1 2 digit) _ day_run).
      * cbn [cls hi between]. apply run_length_bounded; [assumption | lia |].
        right. unfold comma_run. destruct comma; reflexivity.
      * cbn [lo between]. lia.
      * apply (match_greedy (opt (is_char ",")) _ comma_run).
        -- cbn [cls hi opt]. unfold comma_run. destruct comma; reflexivity.
        -- cbn. lia.
        -- apply (match_greedy (plus is_space) _ [ " "%char ]).
           ++ cbn [cls hi plus]. apply run_length_unbounded; [repeat constructor|].
              cbn. apply digit_not_space, digit_char_is_digit.
           ++ cbn. lia.
           ++ rewrite <- (app_nil_r (show4 y)).
              apply (match_exact_run 4 digit [] (show4 y) []);
                [reflexivity | apply show4_digits | reflexivity].
Qed.

Lemma month_name_text_commas :
  remove_commas (month_name_text pad comma (Date y m d))
  = month_name m ++ [ " "%char ] ++ day_run ++ [ " "%char ] ++ show4 y.
Proof using Hvalid.
  destruct (valid_date_bounds y m d Hvalid) as (Hy & Hm & Hd).
  destruct (month_name_word m Hm) as (_ & _ & Hnc & _).
  destruct (day_text_digits pad d) as [Hday _]. fold day_run in Hday.
  assert (Hkeep : forall l, Forall (fun c => is_digit c = true) l ->
            List.filter (fun c => negb (is_char "," c)) l = l).
  { intros l Hl. apply filter_keep_all. eapply List.Forall_impl; [|exact Hl].
    intros c Hc. rewrite (digit_no_comma c Hc). reflexivity. }
  rewrite month_name_text_unfold, remove_commas_filter, !List.filter_app.
  rewrite (Hkeep day_run Hday), (Hkeep (show4 y) (show4_digits y)).
  rewrite (filter_keep_all _ (month_name m)).
  2:{ eapply List.Forall_impl; [|exact Hnc]. intros c ->. reflexivity. }
  unfold comma_run. destruct comma; reflexivity.
Qed.

Lemma month_name_text_strptime :
  strptime (month_name m ++ [ " "%char ] ++ day_run ++ [ " "%char ] ++ show4 y)
           (snd month_name_pattern) = Some (Date y m d).
Proof using Hvalid.
  destruct (valid_date_bounds y m d Hvalid) as (Hy & Hm & Hd).
  destruct (month_name_word m Hm) as (_ & _ & _ & Hb).
  destruct (day_text_digits pad d) as [Hday Hdlen]. fold day_run in Hday, Hdlen.
  unfold strptime. cbn [snd month_name_pattern take_format].
  unfold take_directive at 1. rewrite Hb. cbn [year month day].
  unfold take_directive at 1. cbn [app]. change (is_space " ") with true. cbv iota.
  assert (Hl1 : lstrip (day_run ++ " "%char :: show4 y) = day_run ++ " "%char :: show4 y).
  { apply lstrip_head_ok. destruct day_run as [|c u]; [cbn in Hdlen; lia|].
    inversion Hday; subst. cbn. apply digit_not_space. assumption. }
  rewrite Hl1. unfold take_directive at 1. unfold day_run.
  rewrite take_d_day_text by lia. cbn [year month day].
  unfold take_directive at 1. change (is_space " ") with true. cbv iota.
  assert (Hl2 : lstrip (show4 y) = show4 y).
  { apply lstrip_head_ok. cbn. apply digit_not_space, digit_char_is_digit. }
  rewrite Hl2. unfold take_directive.
  rewrite <- (app_nil_r (show4 y)), take_Y_show4 by lia. cbn [year month day].
  rewrite Hvalid. reflexivity.
Qed.

Lemma month_name_text_chars :
  ~ In "-"%char (month_name_text pad comma (Date y m d))
  /\ ~ In "/"%char (month_name_text pad comma (Date y m d)).
Proof using Hvalid.
  destruct (valid_date_bounds y m d Hvalid) as (Hy & Hm & Hd).
  destruct (month_name_word m Hm) as (_ & Hword & _ & _).
  destruct (day_text_digits pad d) as [Hday _]. fold day_run in Hday.
  assert (Hall : Forall (fun c => is_word c = true \/ c = " "%char \/ c = ","%char)
                        (month_name_text pad comma (Date y m d))).
  { assert (Hw : forall l, Forall (fun c => is_word c = true) l ->
              Forall (fun c => is_word c = true \/ c = " "%char \/ c = ","%char) l).
    { intros l Hl. eapply List.Forall_impl; [|exact Hl]. auto. }
    assert (Hdg : forall l, Forall (fun c => is_digit c = true) l ->
              Forall (fun c => is_word c = true \/ c = " "%char \/ c = ","%char) l).
    { intros l Hl. eapply List.Forall_impl; [|exact Hl]. auto using digit_is_word. }
    assert (Hsp : Forall (fun c => is_word c = true \/ c = " "%char \/ c = ","%char)
                         [ " "%char ]).
    { constructor; [right; left; reflexivity | constructor]. }
    assert (Hcm : Forall (fun c => is_word c = true \/ c = " "%char \/ c = ","%char)
                         comma_run).
    { unfold comma_run. destruct comma; [|constructor].
      constructor; [right; right; reflexivity | constructor]. }
    rewrite month_name_text_unfold, !Forall_app. repeat split; auto using show4_digits. }
  rewrite List.Forall_forall in Hall.
  split; intros Hin; destruct (Hall _ Hin) as [H | [H | H]]; discriminate H.
Qed.

End MonthNameText.

(** X11.  A calendar date written with the English abbreviation of the
    month, "Mon D, YYYY", and no other text is normalised to that date,
    with the comma or without it, and with the day written with or without
    a leading zero. *)
Theorem month_name_text_normalised pad comma dt :
  valid_date dt = true ->
  parse_date (month_name_text pad comma dt) = Some (strftime dt).
Proof.
  destruct dt as [y m d]. intros Hv.
  destruct (month_name_text_chars pad comma y m d Hv) as [Hdash Hslash].
  apply (recognized_parse_date 4 month_name_pattern); [reflexivity| |].
  - unfold attempt.
    rewrite (search_whole _ _ (month_name_text_match pad comma y m d Hv)).
    rewrite (month_name_text_commas pad comma y m d Hv).
    apply month_name_text_strptime. exact Hv.
  - intros [|[|[|[|j]]]] q Hj Hq; [| | | |lia]; injection Hq as <-.
    + apply (no_match_without_char _ _ "-" 4 2 "-" 2); [reflexivity | exact Hdash].
    + apply (no_match_without_char _ _ "/" 2 2 "/" 4); [reflexivity | exact Hslash].
    + apply (no_match_without_char _ _ "-" 2 2 "-" 4); [reflexivity | exact Hdash].
    + apply (no_match_without_char _ _ "/" 2 2 "/" 2); [reflexivity | exact Hslash].
Qed.

Lemma month_name_text_normalised_witness :
  valid_date (Date 2024 1 5) = true
  /\ month_name_text false true (Date 2024 1 5) = py "Jan 5, 2024"
  /\ parse_date (month_name_text false true (Date 2024 1 5))
     = Some (strftime (Date 2024 1 5)).
Proof.
  assert (H : valid_date (Date 2024 1 5) = true) by reflexivity.
  split; [exact H|]. split; [reflexivity|].
  exact (month_name_text_normalised false true (Date 2024 1 5) H).
Defined.

(** ** The 29th of February of a common year *)

Lemma search_prefix r t n :
  match_items r t = Some n -> re_search r t = Some (firstn n t).
Proof.
  intros H. unfold re_search. destruct t as [|c t]; cbn [search_from]; rewrite H; reflexivity.
Qed.

Lemma take_y_pivot c rest :
  0 <= c <= 99 -> take_y (show2 c ++ rest) = Some (pivot_year c, rest).
Proof.
  intros Hc. unfold show2, pivot_year. cbn [app take_y]. rewrite !digit_char_is_digit.
  cbn [andb]. unfold digits_value. cbn [fold_left]. rewrite !digit_value_digit_char.
  replace (10 * (10 * 0 + (c / 10) mod 10) + c mod 10) with c
    by (Z.div_mod_to_equations; lia).
  reflexivity.
Qed.

Lemma strptime_day_first sep d m (yr : text) fmt Dy yv :
  fmt = [D_d; D_lit sep; D_m; D_lit sep; Dy] ->
  1 <= d <= 31 -> 1 <= m <= 12 ->
  (forall acc, take_directive Dy acc yr = Some (Date yv (month acc) (day acc), [])) ->
  strptime (show2 d ++ [sep] ++ show2 m ++ [sep] ++ yr) fmt
  = if valid_date (Date yv m d) then Some (Date yv m d) else None.
Proof.
  intros -> Hd Hm Hy.
  assert (Hsep : is_char sep sep = true) by (apply is_char_eq; reflexivity).
  unfold strptime. cbn [take_format]. unfold take_directive at 1.
  rewrite take_d_show2 by lia. cbn [app year month day].
  unfold take_directive at 1. rewrite Hsep.
  unfold take_directive at 1. rewrite take_m_show2 by lia. cbn [year month day].
  unfold take_directive at 1. rewrite Hsep. rewrite Hy. cbn [year month day].
  reflexivity.
Qed.

Lemma valid_leap_day y : 1 <= y <= 9999 -> valid_date (Date y 2 29) = is_leap y.
Proof.
  intros Hy. unfold valid_date, days_in_month. cbn [year month day].
  replace (1 <=? y) with true by (symmetry; apply Z.leb_le; lia).
  replace (y <=? 9999) with true by (symmetry; apply Z.leb_le; lia).
  destruct (is_leap y); reflexivity.
Qed.

Lemma matches_month_name_space x :
  matches (fst month_name_pattern) x -> exists c, In c x /\ is_space c = true.
Proof.
  unfold month_name_pattern. cbn [fst]. intros H.
  apply matches_exactly in H as (r1 & rest & -> & _ & _ & H).
  inversion H as [|it r run rest' Hrun Hlo _ _]; subst. cbn [cls lo plus] in *.
  destruct run as [|c run]; [cbn in Hlo; lia|]. inversion Hrun; subst.
  exists c. split; [|assumption]. apply in_or_app. right. left. reflexivity.
Qed.

(** X12.  The 29th of February of a year that is not a leap year, written
    DD/MM/YYYY, is not refused when the first two digits of the year make
    a leap year under the two-digit rule: the DD/MM/YY pattern then reads
    the text up to those two digits, and [parse_date] returns the 29th of
    February of that other year ("29/02/2023" gives 2020-02-29).
    Otherwise there is no result. *)
Theorem leap_day_of_common_year y :
  1000 <= y <= 9999 -> is_leap y = false ->
  parse_date (dmy_text "/" (Date y 2 29))
  = if is_leap (pivot_year (y / 100))
    then Some (strftime (Date (pivot_year (y / 100)) 2 29))
    else None.
Proof.
  intros Hy Hleap.
  set (t := dmy_text "/" (Date y 2 29)).
  assert (Ht : t = show2 29 ++ [ "/"%char ] ++ show2 2 ++ [ "/"%char ] ++ show4 y)
    by reflexivity.
  assert (Hchars : Forall (fun x => is_digit x = true \/ x = "/"%char) t).
  { rewrite Ht. apply numeric_date_text_chars; auto using show2_digits, show4_digits. }
  assert (Hnodash : ~ In "-"%char t).
  { intros Hin. rewrite List.Forall_forall in Hchars.
    destruct (Hchars _ Hin) as [H | H]; discriminate H. }
  assert (Hnospace : forall c, In c t -> is_space c = false).
  { intros c Hin. rewrite List.Forall_forall in Hchars.
    destruct (Hchars _ Hin) as [H | ->]; [apply digit_not_space; exact H | reflexivity]. }
  assert (H0 : attempt iso_pattern t = None)
    by (apply (no_match_without_char _ _ "-" 4 2 "-" 2); [reflexivity | exact Hnodash]).
  assert (H2 : attempt dmy_dash_pattern t = None)
    by (apply (no_match_without_char _ _ "-" 2 2 "-" 4); [reflexivity | exact Hnodash]).
  assert (H1 : attempt dmy_slash_pattern t = None).
  { unfold attempt, dmy_slash_pattern. cbn [fst snd].
    rewrite (search_whole _ t).
    2:{ rewrite Ht. apply match_numeric_date; auto using show2_digits, show4_digits. }
    rewrite remove_commas_no_comma
      by (apply (no_comma_in_date_text "/"); [discriminate | exact Hchars]).
    rewrite Ht, (strptime_day_first "/" 29 2 (show4 y) _ D_Y y); try reflexivity; try lia.
    - rewrite valid_leap_day, Hleap by lia. reflexivity.
    - intros acc. cbn [take_directive].
      rewrite <- (app_nil_r (show4 y)), take_Y_show4 by lia. reflexivity. }
  assert (Hyy : 0 <= y / 100 <= 99) by (Z.div_mod_to_equations; lia).
  assert (Hpre : firstn 8 t = show2 29 ++ [ "/"%char ] ++ show2 2 ++ [ "/"%char ]
                              ++ show2 (y / 100)).
  { rewrite Ht. unfold show4, show2. cbn [app firstn]. do 7 f_equal.
    rewrite Z.div_div by lia. reflexivity. }
  assert (H3 : attempt dmy_short_pattern t
               = if is_leap (pivot_year (y / 100))
                 then Some (Date (pivot_year (y / 100)) 2 29) else None).
  { unfold attempt, dmy_short_pattern. cbn [fst snd].
    rewrite (search_prefix _ t 8).
    2:{ rewrite Ht. unfold lit, show4.
        apply (match_exact_run 2 digit _ (show2 29)); [reflexivity | apply show2_digits|].
        apply (match_exact_run 1 (is_char "/") _ [ "/"%char ]);
          [reflexivity | apply is_char_self|].
        apply (match_exact_run 2 digit _ (show2 2)); [reflexivity | apply show2_digits|].
        apply (match_exact_run 1 (is_char "/") _ [ "/"%char ]);
          [reflexivity | apply is_char_self|].
        apply (match_exact_run 2 digit [] [digit_char (y / 1000); digit_char (y / 100)]
                 [digit_char (y / 10); digit_char y] 0);
          [reflexivity | repeat constructor; apply digit_char_is_digit | reflexivity]. }
    rewrite Hpre.
    rewrite remove_commas_no_comma.
    2:{ apply (no_comma_in_date_text "/"); [discriminate|].
        apply numeric_date_text_chars; auto using show2_digits. }
    rewrite (strptime_day_first "/" 29 2 (show2 (y / 100)) _ D_y (pivot_year (y / 100)));
      try reflexivity; try lia.
    - rewrite valid_leap_day; [reflexivity|].
      unfold pivot_year. destruct (Z.leb_spec (y / 100) 68); lia.
    - intros acc. cbn [take_directive].
      rewrite <- (app_nil_r (show2 (y / 100))), take_y_pivot by lia. reflexivity. }
  destruct (is_leap (pivot_year (y / 100))) eqn:Hl.
  - apply (recognized_parse_date 3 dmy_short_pattern); [reflexivity | exact H3 |].
    intros [|[|[|j]]] q Hj Hq; [| | |lia]; injection Hq as <-; assumption.
  - apply parse_date_loop_none. repeat constructor; try assumption.
    unfold attempt. destruct (re_search _ t) as [x|] eqn:Hs; [|reflexivity]. exfalso.
    apply re_search_some in Hs as (pre & post & Hx & Hm & _).
    apply matches_month_name_space in Hm as (c & Hin & Hc).
    rewrite (Hnospace c) in Hc; [discriminate|].
    rewrite Hx. apply in_or_app. right. apply in_or_app. left. exact Hin.
Qed.

Lemma leap_day_of_common_year_witness :
  (1000 <= 2023 <= 9999 /\ is_leap 2023 = false)
  /\ dmy_text "/" (Date 2023 2 29) = py "29/02/2023"
  /\ parse_date (dmy_text "/" (Date 2023 2 29)) = Some (py "2020-02-29").
Proof.
  assert (H1 : 1000 <= 2023 <= 9999) by lia.
  assert (H2 : is_leap 2023 = false) by reflexivity.
  split; [auto|]. split; [reflexivity|].
  exact (leap_day_of_common_year 2023 H1 H2).
Defined.

Lemma dedupe_unchanged_iff_keys_distinct_witness :
  let txns := extract_transactions_from_lines [rent_line; coffee_line] in
  NoDup (map (key binary_repr) txns) /\ dedupe binary_repr txns = txns.
Proof.
  intros txns.
  assert (H : NoDup (map (key binary_repr) txns)).
  { vm_compute. repeat constructor; rewrite ?elem_of_cons, ?elem_of_nil;
      intuition discriminate. }
  split; [exact H|].
  exact (proj2 (dedupe_unchanged_iff_keys_distinct binary_repr txns) H).
Defined.
